(** * EV charging sessions: the cleaning pipeline of [EVDataProcessor]

    Shallow embedding of [Codes/data_processing.py].

    Text is a [string] whose characters are read as the code points
    0..255; Python's [str.strip], [str.lower] and the regular-expression
    class [\s] are embedded with their behaviour on that range.  Numbers
    are IEEE binary64 values ([PrimFloat.float]), as Python's [float] and
    numpy's [float64] are. *)

From Stdlib Require Import Bool Ascii String List ZArith NArith Lia.
From Stdlib Require Import Floats Btauto.
Import ListNotations.

Local Open Scope string_scope.
Local Open Scope bool_scope.

(** ** Python [str] methods and the regular expressions of the source *)

Module PyStr.
(** [str.isspace] on one character; the same set is the class [\s] of
    [re] on [str] patterns. *)
Definition is_space (c : ascii) : bool :=
  let n := N_of_ascii c in
  (((9 <=? n) && (n <=? 13)) || ((28 <=? n) && (n <=? 32))
   || (n =? 133) || (n =? 160))%N.

(** [str.lower] on one character. *)
Definition lower_char (c : ascii) : ascii :=
  let n := N_of_ascii c in
  if (((65 <=? n) && (n <=? 90))
      || ((192 <=? n) && (n <=? 222) && negb (n =? 215)))%N
  then ascii_of_N (n + 32) else c.

Fixpoint lower (s : string) : string :=
  match s with
  | EmptyString => EmptyString
  | String c r => String (lower_char c) (lower r)
  end.

Fixpoint lstrip (s : string) : string :=
  match s with
  | EmptyString => EmptyString
  | String c r => if is_space c then lstrip r else s
  end.

(** Removes the longest suffix whose characters all satisfy [p]. *)
Fixpoint drop_trailing (p : ascii -> bool) (s : string) : string :=
  match s with
  | EmptyString => EmptyString
  | String c r =>
      match drop_trailing p r with
      | EmptyString => if p c then EmptyString else String c EmptyString
      | r' => String c r'
      end
  end.

Definition rstrip (s : string) : string := drop_trailing is_space s.

(** [s.strip()] *)
Definition strip (s : string) : string := rstrip (lstrip s).

Definition is_hash (c : ascii) : bool := Ascii.eqb c "#".
Definition is_newline (c : ascii) : bool := Ascii.eqb c "010".

(** The rest of the text after a ['#'] lets [[#]+$] match there: only
    ['#'] up to the end, or up to a newline that ends the text (Python's
    [$] also matches just before a final newline). *)
Fixpoint hashes_to_end (s : string) : bool :=
  match s with
  | EmptyString => true
  | String c r =>
      if is_hash c then hashes_to_end r
      else is_newline c && String.eqb r EmptyString
  end.

(** The text a match ending at [$] leaves behind it. *)
Fixpoint final_newline (s : string) : string :=
  match s with
  | EmptyString => EmptyString
  | String c EmptyString => if is_newline c then s else EmptyString
  | String _ r => final_newline r
  end.

(** [re.sub(r"[#]+$", "", s)]: the leftmost match is replaced. *)
Fixpoint re_sub_trailing_hashes (s : string) : string :=
  match s with
  | EmptyString => EmptyString
  | String c r =>
      if is_hash c && hashes_to_end r then final_newline r
      else String c (re_sub_trailing_hashes r)
  end.

(** [re.sub(r"\s+", " ", s)]; [in_run] tells that the previous character
    belonged to a whitespace run already replaced. *)
Fixpoint collapse_from (in_run : bool) (s : string) : string :=
  match s with
  | EmptyString => EmptyString
  | String c r =>
      if is_space c
      then if in_run then collapse_from true r
           else String " " (collapse_from true r)
      else String c (collapse_from false r)
  end.

Definition re_sub_whitespace (s : string) : string := collapse_from false s.

(** [s.replace(c, "")] for a one-character pattern [c].  This is also
    pandas' [Series.str.replace(c, "")]: a pattern of one character is
    taken literally. *)
Fixpoint remove_char (c : ascii) (s : string) : string :=
  match s with
  | EmptyString => EmptyString
  | String d r =>
      if Ascii.eqb d c then remove_char c r else String d (remove_char c r)
  end.

(** [s.split(sep)] for a separator of one character: a split at every
    occurrence, never an empty list. *)
Fixpoint split_on (sep : ascii) (s : string) : list string :=
  match s with
  | EmptyString => [EmptyString]
  | String c r =>
      if Ascii.eqb c sep then EmptyString :: split_on sep r
      else match split_on sep r with
           | [] => [String c EmptyString]
           | w :: ws => String c w :: ws
           end
  end.

(** [s.split(" ")] *)
Definition split_space (s : string) : list string := split_on " " s.

(** The rest of the text after a ['.'] lets [\..*$] match there: no
    newline, except one that ends the text. *)
Fixpoint line_to_end (s : string) : bool :=
  match s with
  | EmptyString => true
  | String c r =>
      if is_newline c then String.eqb r EmptyString else line_to_end r
  end.

(** [re.sub(r"\..*$", "", s)], as [Series.str.replace(..., regex=True)]
    applies it to one value. *)
Fixpoint re_sub_fraction (s : string) : string :=
  match s with
  | EmptyString => EmptyString
  | String c r =>
      if Ascii.eqb c "." && line_to_end r then final_newline r
      else String c (re_sub_fraction r)
  end.

(** The text keeps no whitespace at either end. *)
Definition starts_clean (s : string) : bool :=
  match s with
  | EmptyString => true
  | String c _ => negb (is_space c)
  end.

Fixpoint ends_with (p : ascii -> bool) (s : string) : bool :=
  match s with
  | EmptyString => false
  | String c EmptyString => p c
  | String _ r => ends_with p r
  end.

Definition trimmed (s : string) : bool :=
  starts_clean s && negb (ends_with is_space s).

(** Every character is its own lowercase. *)
Fixpoint lowered (s : string) : bool :=
  match s with
  | EmptyString => true
  | String c r => Ascii.eqb (lower_char c) c && lowered r
  end.

(** No character of the text is whitespace. *)
Fixpoint spaceless (s : string) : bool :=
  match s with
  | EmptyString => true
  | String c r => negb (is_space c) && spaceless r
  end.

(** Whitespace occurs only as single [" "] characters. *)
Fixpoint single_spaced (after_space : bool) (s : string) : bool :=
  match s with
  | EmptyString => true
  | String c r =>
      if is_space c
      then negb after_space && Ascii.eqb c " " && single_spaced true r
      else single_spaced false r
  end.

(** Every character of the text satisfies [p]. *)
Fixpoint every (p : ascii -> bool) (s : string) : bool :=
  match s with
  | EmptyString => true
  | String c r => p c && every p r
  end.

(** [c in s] for one character. *)
Fixpoint contains (c : ascii) (s : string) : bool :=
  match s with
  | EmptyString => false
  | String d r => Ascii.eqb d c || contains c r
  end.

(** The text before the first [c], the whole text when there is none. *)
Fixpoint before (c : ascii) (s : string) : string :=
  match s with
  | EmptyString => EmptyString
  | String d r => if Ascii.eqb d c then EmptyString else String d (before c r)
  end.
End PyStr.

(** ** Python's [float(text)] *)

Module PyFloat.
Local Open Scope Z_scope.

Definition is_digit (c : ascii) : bool :=
  let n := N_of_ascii c in ((48 <=? n) && (n <=? 57))%N.

Definition digit_val (c : ascii) : Z := Z.of_N (N_of_ascii c) - 48.

(** The rest of a [digitpart] (digits, with single underscores between
    digits only): the digits read so far as a number, how many were read,
    and the text that is left. *)
Fixpoint digits_rest (acc n : Z) (s : string) : Z * Z * string :=
  match s with
  | EmptyString => (acc, n, s)
  | String c r =>
      if is_digit c then digits_rest (10 * acc + digit_val c) (n + 1) r
      else if Ascii.eqb c "_" then
        match r with
        | String d r' =>
            if is_digit d
            then digits_rest (10 * acc + digit_val d) (n + 1) r'
            else (acc, n, s)
        | EmptyString => (acc, n, s)
        end
      else (acc, n, s)
  end.

Definition digitpart (acc n : Z) (s : string) : option (Z * Z * string) :=
  match s with
  | String c r =>
      if is_digit c
      then Some (digits_rest (10 * acc + digit_val c) (n + 1) r)
      else None
  | EmptyString => None
  end.

Definition sign (s : string) : bool * string :=
  match s with
  | String c r =>
      if Ascii.eqb c "-" then (true, r)
      else if Ascii.eqb c "+" then (false, r)
      else (false, s)
  | EmptyString => (false, s)
  end.

(** The mantissa: digits, a point, or both, with at least one digit.  The
    result is the digits as one integer, the number of digits after the
    point, and the text that is left. *)
Definition mantissa (s : string) : option (Z * Z * string) :=
  match s with
  | String "." r => digitpart 0 0 r
  | _ =>
      match digitpart 0 0 s with
      | Some (m, _, String "." r) =>
          match digitpart m 0 r with
          | Some res => Some res
          | None => Some (m, 0, r)
          end
      | Some (m, _, r) => Some (m, 0, r)
      | None => None
      end
  end%Z.

(** The exponent part, if the text goes on: [e] or [E], a sign, digits. *)
Definition exponent (s : string) : option Z :=
  match s with
  | EmptyString => Some 0
  | String c r =>
      if Ascii.eqb c "e" || Ascii.eqb c "E" then
        let (neg, r1) := sign r in
        match digitpart 0 0 r1 with
        | Some (e, _, EmptyString) => Some (if neg then - e else e)
        | _ => None
        end
      else None
  end%Z.

(** The binary64 value nearest to [m * 10 ^ e] for [0 < m], ties to the
    even mantissa: the quotient [num / den] is cut to 53 bits (fewer in the
    subnormal range), rounded, and scaled by the power of two. *)
Definition nearest_binary64 (m e : Z) : float :=
  let num := if 0 <=? e then m * 10 ^ e else m in
  let den := if 0 <=? e then 1 else 10 ^ (- e) in
  let scaled k := if 0 <=? k then (num, den * 2 ^ k)
                  else (num * 2 ^ (- k), den) in
  let k1 := Z.log2 num - Z.log2 den - 52 in
  let k2 := let (n1, d1) := scaled k1 in
            if n1 / d1 <? 2 ^ 52 then k1 - 1 else k1 in
  let k := Z.max k2 (-1074) in
  let (n, d) := scaled k in
  let q := n / d in
  let r := n mod d in
  let q' := if (d <? 2 * r) || ((d =? 2 * r) && Z.odd q) then q + 1 else q in
  Z.ldexp (of_uint63 (Uint63.of_Z q')) k.

Definition of_decimal (neg : bool) (m e : Z) : float :=
  let x := if m =? 0 then 0%float else nearest_binary64 m e in
  if neg then (- x)%float else x.

(** [float(s)]: [None] stands for the [ValueError] Python raises. *)
Definition float_of_str (s : string) : option float :=
  let (neg, body) := sign (PyStr.strip s) in
  let word := PyStr.lower body in
  if String.eqb word "inf" || String.eqb word "infinity"
  then Some (if neg then neg_infinity else infinity)
  else if String.eqb word "nan" then Some nan
  else
    match mantissa body with
    | Some (m, frac_digits, rest) =>
        match exponent rest with
        | Some e => Some (of_decimal neg m (e - frac_digits))
        | None => None
        end
    | None => None
    end.
End PyFloat.

(** ** Values of object columns, errors *)

(** A cell of an object column: [None], a float NaN ([np.nan]), a [str],
    or any other object, of which only the text [str(x)] gives is kept
    (an [int] of a column that was read as numbers, say). *)
Inductive pyobj : Type :=
| PyNone
| PyNaN
| PyStr (s : string)
| PyOther (text : string).

(** [str(x)] *)
Definition str (x : pyobj) : string :=
  match x with
  | PyNone => "None"
  | PyNaN => "nan"
  | PyStr s => s
  | PyOther text => text
  end.

(** [pd.isna(x)] *)
Definition isna (x : pyobj) : bool :=
  match x with
  | PyNone | PyNaN => true
  | PyStr _ | PyOther _ => false
  end.

Inductive exn : Type :=
| ValueError.

Inductive result (A : Type) : Type :=
| Ok (a : A)
| Raise (e : exn).
Arguments Ok {A} a.
Arguments Raise {A} e.

Definition bind {A B : Type} (m : result A) (f : A -> result B) : result B :=
  match m with
  | Ok a => f a
  | Raise e => Raise e
  end.

Notation "x <- m ;; k" := (bind m (fun x => k))
  (at level 61, m at next level, right associativity).

(** Runs [f] over a column, stopping at the first exception. *)
Fixpoint mapM {A B : Type} (f : A -> result B) (l : list A) : result (list B) :=
  match l with
  | [] => Ok []
  | a :: l' => b <- f a ;; bs <- mapM f l' ;; Ok (b :: bs)
  end.

(** A Python [dict] from [str] to [str], in the order it is written. *)
Definition dict : Type := list (string * string).

(** [d.get(k)] *)
Fixpoint dict_get (d : dict) (k : string) : option string :=
  match d with
  | [] => None
  | (k', v) :: d' => if String.eqb k' k then Some v else dict_get d' k
  end.

(** ** The pandas operations the source calls *)

Module Pandas.
Definition Series : Type := list pyobj.

(** [s.fillna(v)] *)
Definition fillna (v : pyobj) (s : Series) : Series :=
  map (fun x => if isna x then v else x) s.

(** One cell under [s.replace(d)] for a dict [d]: a cell equal to a key
    becomes that key's value, whole cells only. *)
Definition replace_by (d : dict) (x : pyobj) : pyobj :=
  match x with
  | PyStr k => match dict_get d k with Some v => PyStr v | None => x end
  | _ => x
  end.

Definition replace_dict (d : dict) (s : Series) : Series := map (replace_by d) s.

(** One cell under [s.replace(old, new)]. *)
Definition replace_one (old : string) (new : pyobj) (x : pyobj) : pyobj :=
  match x with
  | PyStr k => if String.eqb k old then new else x
  | _ => x
  end.

Definition replace (old : string) (new : pyobj) (s : Series) : Series :=
  map (replace_one old new) s.

(** [s.str.split(" ").str[i]] on one cell: the [i]-th piece, NaN ([None]
    here) when there is none or when the cell is not a [str]. *)
Definition str_split_get (i : nat) (x : pyobj) : option string :=
  match x with
  | PyStr s => nth_error (PyStr.split_space s) i
  | _ => None
  end.

(** [s.str.replace(r"\..*$", "", regex=True)] on one cell. *)
Definition str_replace_fraction (x : option string) : option string :=
  option_map PyStr.re_sub_fraction x.

(** What [pd.to_datetime] makes of one text: an exception, a missing
    timestamp ([NaT]), or a value. *)
Inductive parsed (A : Type) : Type :=
| Invalid
| NaT
| Parsed (a : A).
Arguments Invalid {A}.
Arguments NaT {A}.
Arguments Parsed {A} a.

(** [pd.to_datetime(s, ...)] with the default [errors="raise"]: a missing
    cell gives [NaT] and raises nothing; one text that does not parse makes
    the whole call raise. *)
Definition to_datetime_cell {A : Type} (parse : string -> parsed A)
    (x : option string) : result (option A) :=
  match x with
  | None => Ok None
  | Some s =>
      match parse s with
      | Invalid => Raise ValueError
      | NaT => Ok None
      | Parsed a => Ok (Some a)
      end
  end.

Definition to_datetime {A : Type} (parse : string -> parsed A)
    (s : list (option string)) : result (list (option A)) :=
  mapM (to_datetime_cell parse) s.

(** [s.astype(float)] on a column of texts. *)
Definition astype_float (s : list string) : result (list float) :=
  mapM (fun t => match PyFloat.float_of_str t with
                 | Some f => Ok f
                 | None => Raise ValueError
                 end) s.
End Pandas.

(** Calendar dates and times of day, as [datetime.date] and
    [datetime.time] hold them. *)
Record date : Type := { year : Z; month : Z; day : Z }.
Record time : Type := { hour : Z; minute : Z; second : Z }.

(** The two parsers behind [pd.to_datetime]: without a format (the date
    columns) and with [format="%H:%M:%S"] (the time columns). *)
Record datetime_parsers : Type := {
  parse_date : string -> Pandas.parsed date;
  parse_time : string -> Pandas.parsed time
}.

(** ** The table at the three stages of the pipeline

    The columns are those left by [rename_columns] and [drop_user_id].
    Text columns are object columns; the seven measurement columns are
    float columns, where a missing value is a NaN. *)

(** [self.cat_cols] *)
Module Col.
Inductive t : Type :=
| VehicleModel
| ChargingStationLocation
| TimeOfDay
| DayOfWeek
| ChargerType
| UserType.
End Col.

Record categoricals : Type := {
  VehicleModel : pyobj;
  ChargingStationLocation : pyobj;
  TimeOfDay : pyobj;
  DayOfWeek : pyobj;
  ChargerType : pyobj;
  UserType : pyobj
}.

Record numerics : Type := {
  BatteryCapacityKWh : float;
  EnergyConsumedKwh : float;
  ChargingDurationHours : float;
  ChargingRateKW : float;
  DistanceDrivenKm : float;
  TemperatureC : float;
  VehicleAgeYears : float
}.

Definition get_cat (c : Col.t) (r : categoricals) : pyobj :=
  match c with
  | Col.VehicleModel => r.(VehicleModel)
  | Col.ChargingStationLocation => r.(ChargingStationLocation)
  | Col.TimeOfDay => r.(TimeOfDay)
  | Col.DayOfWeek => r.(DayOfWeek)
  | Col.ChargerType => r.(ChargerType)
  | Col.UserType => r.(UserType)
  end.

Definition set_cat (c : Col.t) (v : pyobj) (r : categoricals) : categoricals :=
  match c with
  | Col.VehicleModel =>
      {| VehicleModel := v;
         ChargingStationLocation := r.(ChargingStationLocation);
         TimeOfDay := r.(TimeOfDay); DayOfWeek := r.(DayOfWeek);
         ChargerType := r.(ChargerType); UserType := r.(UserType) |}
  | Col.ChargingStationLocation =>
      {| VehicleModel := r.(VehicleModel);
         ChargingStationLocation := v;
         TimeOfDay := r.(TimeOfDay); DayOfWeek := r.(DayOfWeek);
         ChargerType := r.(ChargerType); UserType := r.(UserType) |}
  | Col.TimeOfDay =>
      {| VehicleModel := r.(VehicleModel);
         ChargingStationLocation := r.(ChargingStationLocation);
         TimeOfDay := v; DayOfWeek := r.(DayOfWeek);
         ChargerType := r.(ChargerType); UserType := r.(UserType) |}
  | Col.DayOfWeek =>
      {| VehicleModel := r.(VehicleModel);
         ChargingStationLocation := r.(ChargingStationLocation);
         TimeOfDay := r.(TimeOfDay); DayOfWeek := v;
         ChargerType := r.(ChargerType); UserType := r.(UserType) |}
  | Col.ChargerType =>
      {| VehicleModel := r.(VehicleModel);
         ChargingStationLocation := r.(ChargingStationLocation);
         TimeOfDay := r.(TimeOfDay); DayOfWeek := r.(DayOfWeek);
         ChargerType := v; UserType := r.(UserType) |}
  | Col.UserType =>
      {| VehicleModel := r.(VehicleModel);
         ChargingStationLocation := r.(ChargingStationLocation);
         TimeOfDay := r.(TimeOfDay); DayOfWeek := r.(DayOfWeek);
         ChargerType := r.(ChargerType); UserType := v |}
  end.

Definition isna_categoricals (r : categoricals) : bool :=
  isna r.(VehicleModel) || isna r.(ChargingStationLocation)
  || isna r.(TimeOfDay) || isna r.(DayOfWeek)
  || isna r.(ChargerType) || isna r.(UserType).

Definition isna_numerics (r : numerics) : bool :=
  is_nan r.(BatteryCapacityKWh) || is_nan r.(EnergyConsumedKwh)
  || is_nan r.(ChargingDurationHours) || is_nan r.(ChargingRateKW)
  || is_nan r.(DistanceDrivenKm) || is_nan r.(TemperatureC)
  || is_nan r.(VehicleAgeYears).

Definition isnone {A : Type} (x : option A) : bool :=
  match x with
  | None => true
  | Some _ => false
  end.

(** The table from [drop_user_id] to [handle_missing_and_dropna]. *)
Module Loaded.
Record row : Type := {
  cat : categoricals;
  num : numerics;
  ChargingStationId : pyobj;
  ChargingStartTime : pyobj;
  ChargingEndTime : pyobj;
  ChargingCostUSD : pyobj;
  StateOfChargeStart_pct : pyobj;
  StateOfChargeEnd_pct : pyobj
}.

Definition frame : Type := list row.

(** [df.isna().any(axis=1)] on one row. *)
Definition isna_any (r : row) : bool :=
  isna_categoricals r.(cat) || isna_numerics r.(num)
  || isna r.(ChargingStationId)
  || isna r.(ChargingStartTime) || isna r.(ChargingEndTime)
  || isna r.(ChargingCostUSD)
  || isna r.(StateOfChargeStart_pct) || isna r.(StateOfChargeEnd_pct).

(** [df[col]] and [df[col] = s] for a categorical column. *)
Definition get_column (c : Col.t) (df : frame) : Pandas.Series :=
  map (fun r => get_cat c r.(cat)) df.

Definition set_cell (c : Col.t) (v : pyobj) (r : row) : row :=
  {| cat := set_cat c v r.(cat); num := r.(num);
     ChargingStationId := r.(ChargingStationId);
     ChargingStartTime := r.(ChargingStartTime);
     ChargingEndTime := r.(ChargingEndTime);
     ChargingCostUSD := r.(ChargingCostUSD);
     StateOfChargeStart_pct := r.(StateOfChargeStart_pct);
     StateOfChargeEnd_pct := r.(StateOfChargeEnd_pct) |}.

Fixpoint set_column (c : Col.t) (s : Pandas.Series) (df : frame) : frame :=
  match df, s with
  | r :: df', v :: s' => set_cell c v r :: set_column c s' df'
  | _, _ => df
  end.
End Loaded.

(** The table after [process_datetime_columns]. *)
Module Dated.
Record row : Type := {
  cat : categoricals;
  num : numerics;
  ChargingStationId : pyobj;
  ChargingCostUSD : pyobj;
  StateOfChargeStart_pct : pyobj;
  StateOfChargeEnd_pct : pyobj;
  ChargingStartDate : option date;
  ChargingStartTime : option time;
  ChargingEndDate : option date;
  ChargingEndTime : option time
}.

Definition frame : Type := list row.
End Dated.

(** The table after [clean_symbols_and_features]. *)
Module Final.
Record row : Type := {
  cat : categoricals;
  num : numerics;
  ChargingStationId : string;
  ChargingCostUSD : float;
  StateOfChargeStart_pct : float;
  StateOfChargeEnd_pct : float;
  ChargingStartDate : option date;
  ChargingStartTime : option time;
  ChargingEndDate : option date;
  ChargingEndTime : option time;
  ChargeDifference_pct : float;
  ChargingDurationMinutes : float
}.

Definition frame : Type := list row.

Definition isna_any (r : row) : bool :=
  isna_categoricals r.(cat) || isna_numerics r.(num)
  || is_nan r.(ChargingCostUSD)
  || is_nan r.(StateOfChargeStart_pct) || is_nan r.(StateOfChargeEnd_pct)
  || isnone r.(ChargingStartDate) || isnone r.(ChargingStartTime)
  || isnone r.(ChargingEndDate) || isnone r.(ChargingEndTime)
  || is_nan r.(ChargeDifference_pct) || is_nan r.(ChargingDurationMinutes).

(** [df.select_dtypes(include=[np.number])], column by column. *)
Definition numeric_columns (df : frame) : list (string * list float) :=
  [ ("BatteryCapacityKWh", map (fun r => r.(num).(BatteryCapacityKWh)) df);
    ("EnergyConsumedKwh", map (fun r => r.(num).(EnergyConsumedKwh)) df);
    ("ChargingDurationHours", map (fun r => r.(num).(ChargingDurationHours)) df);
    ("ChargingRateKW", map (fun r => r.(num).(ChargingRateKW)) df);
    ("ChargingCostUSD", map (fun r => r.(ChargingCostUSD)) df);
    ("StateOfChargeStart%", map (fun r => r.(StateOfChargeStart_pct)) df);
    ("StateOfChargeEnd%", map (fun r => r.(StateOfChargeEnd_pct)) df);
    ("DistanceDrivenKm", map (fun r => r.(num).(DistanceDrivenKm)) df);
    ("TemperatureC", map (fun r => r.(num).(TemperatureC)) df);
    ("VehicleAgeYears", map (fun r => r.(num).(VehicleAgeYears)) df);
    ("ChargeDifference%", map (fun r => r.(ChargeDifference_pct)) df);
    ("ChargingDurationMinutes", map (fun r => r.(ChargingDurationMinutes)) df) ].
End Final.

(** ** [class EVDataProcessor] *)

Module EVDataProcessor.
Import Pandas.

(** *** The alias dictionaries: typos to corrected normalized form *)

Definition VEHICLE_ALIASES : dict :=
  [ ("audi e-tro", "audi e-tron");
    ("tesla model", "tesla model 3");
    ("chevy bol", "chevy bolt");
    ("nissan lea", "nissan leaf");
    ("hyundai kon", "hyundai kona") ].

Definition LOCATION_ALIASES : dict :=
  [ ("los angele", "los angeles");
    ("new yor", "new york");
    ("san francisc", "san francisco");
    ("chicag", "chicago");
    ("seattl", "seattle") ].

Definition TIME_ALIASES : dict :=
  [ ("mornin", "morning");
    ("afternoo", "afternoon");
    ("evenin", "evening");
    ("nigh", "night") ].

Definition DAY_ALIASES : dict :=
  [ ("monda", "monday");
    ("tuesda", "tuesday");
    ("wednesda", "wednesday");
    ("thursda", "thursday");
    ("frida", "friday");
    ("saturda", "saturday");
    ("sunda", "sunday") ].

Definition CHARGER_ALIASES : dict :=
  [ ("dc fast charge", "dc fast charger") ].

Definition USER_ALIASES : dict :=
  [ ("commute", "commuter");
    ("long-distance travele", "long distance traveler");
    ("long-distance traveler", "long distance traveler") ].

(** *** The canonical dictionaries: normalized form to final label *)

Definition VEHICLE_CANON : dict :=
  [ ("tesla model 3", "Tesla Model 3");
    ("chevy bolt", "Chevy Bolt");
    ("nissan leaf", "Nissan Leaf");
    ("hyundai kona", "Hyundai Kona");
    ("audi e-tron", "Audi e-Tron") ].

Definition LOCATION_CANON : dict :=
  [ ("los angeles", "Los Angeles");
    ("new york", "New York");
    ("san francisco", "San Francisco");
    ("chicago", "Chicago");
    ("seattle", "Seattle") ].

Definition TIME_CANON : dict :=
  [ ("morning", "Morning");
    ("afternoon", "Afternoon");
    ("evening", "Evening");
    ("night", "Night") ].

Definition DAY_CANON : dict :=
  [ ("monday", "Monday");
    ("tuesday", "Tuesday");
    ("wednesday", "Wednesday");
    ("thursday", "Thursday");
    ("friday", "Friday");
    ("saturday", "Saturday");
    ("sunday", "Sunday") ].

Definition CHARGER_CANON : dict :=
  [ ("level 1", "Level 1");
    ("level 2", "Level 2");
    ("dc fast charger", "Dc Fast Charger");
    ("level", "Level") ].

Definition USER_CANON : dict :=
  [ ("commuter", "Commuter");
    ("long distance traveler", "Long Distance Traveler") ].

(** The dictionaries [clean_categoricals_auto] passes for each column. *)
Definition aliases_of (c : Col.t) : dict :=
  match c with
  | Col.VehicleModel => VEHICLE_ALIASES
  | Col.ChargingStationLocation => LOCATION_ALIASES
  | Col.TimeOfDay => TIME_ALIASES
  | Col.DayOfWeek => DAY_ALIASES
  | Col.ChargerType => CHARGER_ALIASES
  | Col.UserType => USER_ALIASES
  end.

Definition canon_of (c : Col.t) : dict :=
  match c with
  | Col.VehicleModel => VEHICLE_CANON
  | Col.ChargingStationLocation => LOCATION_CANON
  | Col.TimeOfDay => TIME_CANON
  | Col.DayOfWeek => DAY_CANON
  | Col.ChargerType => CHARGER_CANON
  | Col.UserType => USER_CANON
  end.

(** *** Core utilities *)

Definition _normalize_text (x : pyobj) : pyobj :=
  match x with
  | PyNone => PyNaN
  | PyNaN => PyNaN
  | _ =>
      let s := PyStr.lower (PyStr.strip (str x)) in
      if String.eqb s "nan" then PyNaN
      else
        let s := PyStr.strip (PyStr.re_sub_trailing_hashes s) in
        let s := PyStr.re_sub_whitespace s in
        PyStr s
  end.

Definition _apply_aliases (norm_series : Series) (aliases : dict) : Series :=
  replace_dict aliases norm_series.

(** The inner function of [_to_canonical]. *)
Definition mapper (canon : dict) (v : pyobj) : pyobj :=
  match v with
  | PyNaN => PyNaN
  | PyStr k => match dict_get canon k with Some label => PyStr label | None => v end
  | _ => v
  end.

Definition _to_canonical (norm_series : Series) (canon : dict) : Series :=
  map (mapper canon) norm_series.

(** The steps of [_clean_categorical_column] on the column itself. *)
Definition clean_series (aliases canon : dict) (column : Series) : Series :=
  let filled := fillna (PyStr "Unknown") column in
  let s := map _normalize_text filled in
  let s := _apply_aliases s aliases in
  let s := _to_canonical s canon in
  let s := replace "unknown" PyNaN s in
  let s := replace "Unknown" PyNaN s in
  s.

Definition _clean_categorical_column (col : Col.t) (aliases canon : dict)
    (df : Loaded.frame) : Loaded.frame :=
  Loaded.set_column col (clean_series aliases canon (Loaded.get_column col df)) df.

(** *** Pipeline steps *)

Definition clean_categoricals_auto (df : Loaded.frame) : Loaded.frame :=
  let df := _clean_categorical_column Col.VehicleModel VEHICLE_ALIASES VEHICLE_CANON df in
  let df := _clean_categorical_column Col.ChargingStationLocation
              LOCATION_ALIASES LOCATION_CANON df in
  let df := _clean_categorical_column Col.TimeOfDay TIME_ALIASES TIME_CANON df in
  let df := _clean_categorical_column Col.DayOfWeek DAY_ALIASES DAY_CANON df in
  let df := _clean_categorical_column Col.ChargerType CHARGER_ALIASES CHARGER_CANON df in
  let df := _clean_categorical_column Col.UserType USER_ALIASES USER_CANON df in
  df.

(** [self.df.dropna()]; the counts printed before it change nothing. *)
Definition handle_missing_and_dropna (df : Loaded.frame) : Loaded.frame :=
  filter (fun r => negb (Loaded.isna_any r)) df.

(** The four new columns are put back on the rows they were computed
    from. *)
Fixpoint with_datetimes (df : Loaded.frame)
    (start_date end_date : list (option date))
    (start_time end_time : list (option time)) : Dated.frame :=
  match df, start_date, end_date, start_time, end_time with
  | r :: df', d1 :: ds1, d2 :: ds2, t1 :: ts1, t2 :: ts2 =>
      {| Dated.cat := r.(Loaded.cat); Dated.num := r.(Loaded.num);
         Dated.ChargingStationId := r.(Loaded.ChargingStationId);
         Dated.ChargingCostUSD := r.(Loaded.ChargingCostUSD);
         Dated.StateOfChargeStart_pct := r.(Loaded.StateOfChargeStart_pct);
         Dated.StateOfChargeEnd_pct := r.(Loaded.StateOfChargeEnd_pct);
         Dated.ChargingStartDate := d1; Dated.ChargingStartTime := t1;
         Dated.ChargingEndDate := d2; Dated.ChargingEndTime := t2 |}
      :: with_datetimes df' ds1 ds2 ts1 ts2
  | _, _, _, _, _ => []
  end.

Definition process_datetime_columns (lib : datetime_parsers)
    (df : Loaded.frame) : result Dated.frame :=
  let ChargingStartDateOnly :=
    map (fun r => str_split_get 0 r.(Loaded.ChargingStartTime)) df in
  let ChargingStartTimeOnly :=
    map (fun r => str_split_get 1 r.(Loaded.ChargingStartTime)) df in
  let ChargingEndDateOnly :=
    map (fun r => str_split_get 0 r.(Loaded.ChargingEndTime)) df in
  let ChargingEndTimeOnly :=
    map (fun r => str_split_get 1 r.(Loaded.ChargingEndTime)) df in
  let ChargingEndTimeOnly := map str_replace_fraction ChargingEndTimeOnly in
  start_date <- to_datetime lib.(parse_date) ChargingStartDateOnly ;;
  end_date <- to_datetime lib.(parse_date) ChargingEndDateOnly ;;
  start_time <- to_datetime lib.(parse_time) ChargingStartTimeOnly ;;
  end_time <- to_datetime lib.(parse_time) ChargingEndTimeOnly ;;
  Ok (with_datetimes df start_date end_date start_time end_time).

(** The converted and the derived columns are put back on their rows. *)
Fixpoint with_features (df : Dated.frame)
    (soc_start soc_end cost : list float) (station : list string)
    (difference minutes : list float) : Final.frame :=
  match df, soc_start, soc_end, cost, station, difference, minutes with
  | r :: df', s :: ss, e :: es, c :: cs, i :: ids, d :: ds, m :: ms =>
      {| Final.cat := r.(Dated.cat); Final.num := r.(Dated.num);
         Final.ChargingStationId := i;
         Final.ChargingCostUSD := c;
         Final.StateOfChargeStart_pct := s;
         Final.StateOfChargeEnd_pct := e;
         Final.ChargingStartDate := r.(Dated.ChargingStartDate);
         Final.ChargingStartTime := r.(Dated.ChargingStartTime);
         Final.ChargingEndDate := r.(Dated.ChargingEndDate);
         Final.ChargingEndTime := r.(Dated.ChargingEndTime);
         Final.ChargeDifference_pct := d;
         Final.ChargingDurationMinutes := m |}
      :: with_features df' ss es cs ids ds ms
  | _, _, _, _, _, _, _ => []
  end.

(** Columns subtracted cell by cell. *)
Fixpoint series_sub (a b : list float) : list float :=
  match a, b with
  | x :: a', y :: b' => (x - y)%float :: series_sub a' b'
  | _, _ => []
  end.

Definition clean_symbols_and_features (df : Dated.frame) : result Final.frame :=
  soc_start <- astype_float
    (map (fun r => PyStr.remove_char "%" (str r.(Dated.StateOfChargeStart_pct))) df) ;;
  soc_end <- astype_float
    (map (fun r => PyStr.remove_char "%" (str r.(Dated.StateOfChargeEnd_pct))) df) ;;
  cost <- astype_float
    (map (fun r => PyStr.remove_char "$" (str r.(Dated.ChargingCostUSD))) df) ;;
  let station :=
    map (fun r => PyStr.remove_char "S" (str r.(Dated.ChargingStationId))) df in
  let difference := series_sub soc_end soc_start in
  let minutes :=
    map (fun r => (r.(Dated.num).(ChargingDurationHours) * 60)%float) df in
  Ok (with_features df soc_start soc_end cost station difference minutes).

(** The bounds of the 1.5 * IQR rule. *)
Definition iqr_bounds (Q1 Q3 : float) : float * float :=
  let IQR := (Q3 - Q1)%float in
  ((Q1 - 1.5 * IQR)%float, (Q3 + 1.5 * IQR)%float).

(** The mask of the selection of outliers, on one value. *)
Definition is_outlier (lower_bound upper_bound v : float) : bool :=
  (v <? lower_bound)%float || (upper_bound <? v)%float.

(** The body of the loop of [check_outliers_iqr] for one column;
    [quantile] is [Series.quantile]. *)
Definition outliers_of_column (quantile : list float -> float -> float)
    (column : list float) : list float :=
  let Q1 := quantile column 0.25%float in
  let Q3 := quantile column 0.75%float in
  let (lower_bound, upper_bound) := iqr_bounds Q1 Q3 in
  filter (is_outlier lower_bound upper_bound) column.

(** The dictionary [outliers_count] that is printed. *)
Definition check_outliers_iqr (quantile : list float -> float -> float)
    (df : Final.frame) : list (string * nat) :=
  map (fun nc => (fst nc, length (outliers_of_column quantile (snd nc))))
      (Final.numeric_columns df).

End EVDataProcessor.

(** ** [main]: the steps of the chain that change the table *)

Definition main (lib : datetime_parsers) (df : Loaded.frame) : result Final.frame :=
  let df := EVDataProcessor.clean_categoricals_auto df in
  let df := EVDataProcessor.handle_missing_and_dropna df in
  df <- EVDataProcessor.process_datetime_columns lib df ;;
  EVDataProcessor.clean_symbols_and_features df.

(** ** The normalizer as the specification words it *)

Module Spec.
(** Trim, lowercase, strip the trailing ['#'] characters, collapse the
    whitespace runs, in that order. *)
Definition normal_form (s : string) : string :=
  PyStr.re_sub_whitespace
    (PyStr.drop_trailing PyStr.is_hash (PyStr.lower (PyStr.strip s))).

Definition normalize (x : pyobj) : pyobj :=
  match x with
  | PyNone | PyNaN => PyNaN
  | _ => PyStr (normal_form (str x))
  end.
End Spec.

(** ** Sample parsers and a sample table

    Outcomes of [pd.to_datetime] on ISO dates and on clock times, and a
    session record to run the pipeline on.  pandas reads more date forms
    than these; the theorems below hold whatever the parsers answer. *)

Module Sample.
Local Open Scope Z_scope.

Fixpoint number (acc : Z) (s : string) : option Z :=
  match s with
  | EmptyString => Some acc
  | String c r =>
      if PyFloat.is_digit c then number (10 * acc + PyFloat.digit_val c) r
      else None
  end.

Definition field (min_len max_len : nat) (s : string) : option Z :=
  if (Nat.leb min_len (String.length s) && Nat.leb (String.length s) max_len)%bool
  then number 0 s else None.

Definition days_in_month (y m : Z) : Z :=
  if m =? 2 then
    if ((y mod 4 =? 0) && negb (y mod 100 =? 0) || (y mod 400 =? 0))%bool
    then 29 else 28
  else if ((m =? 4) || (m =? 6) || (m =? 9) || (m =? 11))%bool then 30
  else 31.

Definition iso_date (s : string) : Pandas.parsed date :=
  if String.eqb s "" then Pandas.NaT
  else
    match PyStr.split_on "-" s with
    | [y; m; d] =>
        match field 4 4 y, field 2 2 m, field 2 2 d with
        | Some y, Some m, Some d =>
            if ((1 <=? m) && (m <=? 12) && (1 <=? d) && (d <=? days_in_month y m))%bool
            then Pandas.Parsed {| year := y; month := m; day := d |}
            else Pandas.Invalid
        | _, _, _ => Pandas.Invalid
        end
    | _ => Pandas.Invalid
    end.

Definition clock_time (s : string) : Pandas.parsed time :=
  if String.eqb s "" then Pandas.NaT
  else
    match PyStr.split_on ":" s with
    | [h; m; sec] =>
        match field 1 2 h, field 1 2 m, field 1 2 sec with
        | Some h, Some m, Some sec =>
            if ((h <=? 23) && (m <=? 59) && (sec <=? 59))%bool
            then Pandas.Parsed {| hour := h; minute := m; second := sec |}
            else Pandas.Invalid
        | _, _, _ => Pandas.Invalid
        end
    | _ => Pandas.Invalid
    end.

Definition parsers : datetime_parsers :=
  {| parse_date := iso_date; parse_time := clock_time |}.

Definition cats : categoricals :=
  {| VehicleModel := PyStr "Audi E-Tro  ";
     ChargingStationLocation := PyStr "Seattle#";
     TimeOfDay := PyStr "Evening";
     DayOfWeek := PyStr "monday";
     ChargerType := PyStr "Level 2";
     UserType := PyStr "Commuter" |}.

Definition nums : numerics :=
  {| BatteryCapacityKWh := 75; EnergyConsumedKwh := 30.5;
     ChargingDurationHours := 1.5; ChargingRateKW := 22;
     DistanceDrivenKm := 120; TemperatureC := 18.5;
     VehicleAgeYears := 2 |}%float.

Definition session (c : categoricals) (start_time : pyobj) : Loaded.row :=
  {| Loaded.cat := c; Loaded.num := nums;
     Loaded.ChargingStationId := PyStr "S123";
     Loaded.ChargingStartTime := start_time;
     Loaded.ChargingEndTime := PyStr "2024-01-01 13:30:00.0";
     Loaded.ChargingCostUSD := PyStr "$10.50";
     Loaded.StateOfChargeStart_pct := PyStr "20%";
     Loaded.StateOfChargeEnd_pct := PyStr "80%" |}.

(** Every field populated. *)
Definition full_row : Loaded.row := session cats (PyStr "2024-01-01 12:00:00").

(** The start stamp holds a date and no time. *)
Definition date_only_row : Loaded.row := session cats (PyStr "2024-01-01").
End Sample.

(** ** The stages read cell by cell and row by row *)

Module Rowwise.
Import EVDataProcessor.

(** What [_clean_categorical_column] makes of one cell. *)
Definition clean_value (aliases canon : dict) (x : pyobj) : pyobj :=
  let filled := if isna x then PyStr "Unknown" else x in
  let v := _normalize_text filled in
  let v := Pandas.replace_by aliases v in
  let v := mapper canon v in
  let v := Pandas.replace_one "unknown" PyNaN v in
  Pandas.replace_one "Unknown" PyNaN v.

Definition clean_cats (r : categoricals) : categoricals :=
  {| VehicleModel := clean_value VEHICLE_ALIASES VEHICLE_CANON r.(VehicleModel);
     ChargingStationLocation :=
       clean_value LOCATION_ALIASES LOCATION_CANON r.(ChargingStationLocation);
     TimeOfDay := clean_value TIME_ALIASES TIME_CANON r.(TimeOfDay);
     DayOfWeek := clean_value DAY_ALIASES DAY_CANON r.(DayOfWeek);
     ChargerType := clean_value CHARGER_ALIASES CHARGER_CANON r.(ChargerType);
     UserType := clean_value USER_ALIASES USER_CANON r.(UserType) |}.

(** What [clean_categoricals_auto] makes of one row. *)
Definition clean_row (r : Loaded.row) : Loaded.row :=
  {| Loaded.cat := clean_cats r.(Loaded.cat); Loaded.num := r.(Loaded.num);
     Loaded.ChargingStationId := r.(Loaded.ChargingStationId);
     Loaded.ChargingStartTime := r.(Loaded.ChargingStartTime);
     Loaded.ChargingEndTime := r.(Loaded.ChargingEndTime);
     Loaded.ChargingCostUSD := r.(Loaded.ChargingCostUSD);
     Loaded.StateOfChargeStart_pct := r.(Loaded.StateOfChargeStart_pct);
     Loaded.StateOfChargeEnd_pct := r.(Loaded.StateOfChargeEnd_pct) |}.

(** The value [pd.to_datetime] leaves in a cell when it does not raise. *)
Definition datetime_value {A : Type} (parse : string -> Pandas.parsed A)
    (x : option string) : option A :=
  match x with
  | Some s => match parse s with Pandas.Parsed a => Some a | _ => None end
  | None => None
  end.

(** The four tokens [process_datetime_columns] hands to the parsers. *)
Definition start_date_token (r : Loaded.row) : option string :=
  Pandas.str_split_get 0 r.(Loaded.ChargingStartTime).
Definition start_time_token (r : Loaded.row) : option string :=
  Pandas.str_split_get 1 r.(Loaded.ChargingStartTime).
Definition end_date_token (r : Loaded.row) : option string :=
  Pandas.str_split_get 0 r.(Loaded.ChargingEndTime).
Definition end_time_token (r : Loaded.row) : option string :=
  Pandas.str_replace_fraction (Pandas.str_split_get 1 r.(Loaded.ChargingEndTime)).

(** A token is there and the parser refuses it. *)
Definition refused {A : Type} (parse : string -> Pandas.parsed A)
    (x : option string) : Prop :=
  exists s, x = Some s /\ parse s = Pandas.Invalid.

Definition row_refused (lib : datetime_parsers) (r : Loaded.row) : Prop :=
  refused lib.(parse_date) (start_date_token r)
  \/ refused lib.(parse_date) (end_date_token r)
  \/ refused lib.(parse_time) (start_time_token r)
  \/ refused lib.(parse_time) (end_time_token r).

(** What [process_datetime_columns] makes of one row when nothing is
    refused. *)
Definition dated_row (lib : datetime_parsers) (r : Loaded.row) : Dated.row :=
  {| Dated.cat := r.(Loaded.cat); Dated.num := r.(Loaded.num);
     Dated.ChargingStationId := r.(Loaded.ChargingStationId);
     Dated.ChargingCostUSD := r.(Loaded.ChargingCostUSD);
     Dated.StateOfChargeStart_pct := r.(Loaded.StateOfChargeStart_pct);
     Dated.StateOfChargeEnd_pct := r.(Loaded.StateOfChargeEnd_pct);
     Dated.ChargingStartDate := datetime_value lib.(parse_date) (start_date_token r);
     Dated.ChargingStartTime := datetime_value lib.(parse_time) (start_time_token r);
     Dated.ChargingEndDate := datetime_value lib.(parse_date) (end_date_token r);
     Dated.ChargingEndTime := datetime_value lib.(parse_time) (end_time_token r) |}.

(** A cleaned value a second cleaning leaves alone: a missing marker, or a
    text that is not ["nan"] and does not end in ['#']. *)
Definition settled (y : pyobj) : bool :=
  match y with
  | PyStr t => negb (String.eqb t "nan") && negb (PyStr.ends_with PyStr.is_hash t)
  | _ => true
  end.

(** What [clean_symbols_and_features] makes of one row, [r'] of [r]. *)
Definition featured (r : Dated.row) (r' : Final.row) : Prop :=
  PyFloat.float_of_str (PyStr.remove_char "%" (str r.(Dated.StateOfChargeStart_pct)))
  = Some r'.(Final.StateOfChargeStart_pct)
  /\ PyFloat.float_of_str (PyStr.remove_char "%" (str r.(Dated.StateOfChargeEnd_pct)))
     = Some r'.(Final.StateOfChargeEnd_pct)
  /\ PyFloat.float_of_str (PyStr.remove_char "$" (str r.(Dated.ChargingCostUSD)))
     = Some r'.(Final.ChargingCostUSD)
  /\ r'.(Final.ChargingStationId)
     = PyStr.remove_char "S" (str r.(Dated.ChargingStationId))
  /\ r'.(Final.ChargeDifference_pct)
     = (r'.(Final.StateOfChargeEnd_pct) - r'.(Final.StateOfChargeStart_pct))%float
  /\ r'.(Final.ChargingDurationMinutes)
     = (r.(Dated.num).(ChargingDurationHours) * 60)%float
  /\ r'.(Final.cat) = r.(Dated.cat) /\ r'.(Final.num) = r.(Dated.num)
  /\ r'.(Final.ChargingStartDate) = r.(Dated.ChargingStartDate)
  /\ r'.(Final.ChargingStartTime) = r.(Dated.ChargingStartTime)
  /\ r'.(Final.ChargingEndDate) = r.(Dated.ChargingEndDate)
  /\ r'.(Final.ChargingEndTime) = r.(Dated.ChargingEndTime).

Definition settled_row (r : Loaded.row) : bool :=
  settled r.(Loaded.cat).(VehicleModel)
  && settled r.(Loaded.cat).(ChargingStationLocation)
  && settled r.(Loaded.cat).(TimeOfDay)
  && settled r.(Loaded.cat).(DayOfWeek)
  && settled r.(Loaded.cat).(ChargerType)
  && settled r.(Loaded.cat).(UserType).
End Rowwise.

(** ** The column labels: [rename_columns] and [drop_user_id] *)

Module Header.
(** [self.rename_map] *)
Definition rename_map : dict :=
  [ ("user id", "UserId");
    ("VehicleModel", "VehicleModel");
    ("BatteryCapacitykWh", "BatteryCapacityKWh");
    ("Charging_StationID", "ChargingStationId");
    ("Charging StationLocation", "ChargingStationLocation");
    ("Charging StartTime", "ChargingStartTime");
    ("Charging EndTime", "ChargingEndTime");
    ("Energy ConsumedKWh", "EnergyConsumedKwh");
    ("ChargingDuration_hours", "ChargingDurationHours");
    ("ChargingRateKW", "ChargingRateKW");
    ("ChargingCostUSD", "ChargingCostUSD");
    ("TimeofDay", "TimeOfDay");
    ("DayofWeek", "DayOfWeek");
    ("State_of_Charge_Start%", "StateOfChargeStart%");
    ("State_of_Charge_End%", "StateOfChargeEnd%");
    ("Distance_Driven_km", "DistanceDrivenKm");
    ("TemperatureC", "TemperatureC");
    ("VehicleAge_years", "VehicleAgeYears");
    ("ChargerType", "ChargerType");
    ("UserType", "UserType") ].

(** [self.cat_cols] *)
Definition cat_cols : list string :=
  [ "VehicleModel"; "ChargingStationLocation"; "TimeOfDay"; "DayOfWeek";
    "ChargerType"; "UserType" ].

(** [df.rename(columns=m)] on the labels: a label that is a key of [m]
    becomes that key's value, any other label stays. *)
Definition rename (m : dict) (columns : list string) : list string :=
  map (fun c => match dict_get m c with Some c' => c' | None => c end) columns.

Definition rename_columns (columns : list string) : list string :=
  rename rename_map columns.

(** The labels after [drop_user_id]: the guard, then [df.drop("UserId",
    axis=1)]. *)
Definition drop_user_id (columns : list string) : list string :=
  if existsb (String.eqb "UserId") columns
  then filter (fun c => negb (String.eqb c "UserId")) columns
  else columns.

(** The labels the later steps index the table with. *)
Definition columns_read : list string :=
  (cat_cols
   ++ [ "ChargingStartTime"; "ChargingEndTime"; "StateOfChargeStart%";
        "StateOfChargeEnd%"; "ChargingCostUSD"; "ChargingStationId";
        "ChargingDurationHours" ])%list.
End Header.

(** ** What [handle_missing_and_dropna] prints before it drops *)

Module Report.
(** The columns of the table, each with the test [isna] of its cell. *)
Definition isna_columns : list (string * (Loaded.row -> bool)) :=
  [ ("VehicleModel", fun r => isna r.(Loaded.cat).(VehicleModel));
    ("BatteryCapacityKWh", fun r => is_nan r.(Loaded.num).(BatteryCapacityKWh));
    ("ChargingStationId", fun r => isna r.(Loaded.ChargingStationId));
    ("ChargingStationLocation",
      fun r => isna r.(Loaded.cat).(ChargingStationLocation));
    ("ChargingStartTime", fun r => isna r.(Loaded.ChargingStartTime));
    ("ChargingEndTime", fun r => isna r.(Loaded.ChargingEndTime));
    ("EnergyConsumedKwh", fun r => is_nan r.(Loaded.num).(EnergyConsumedKwh));
    ("ChargingDurationHours",
      fun r => is_nan r.(Loaded.num).(ChargingDurationHours));
    ("ChargingRateKW", fun r => is_nan r.(Loaded.num).(ChargingRateKW));
    ("ChargingCostUSD", fun r => isna r.(Loaded.ChargingCostUSD));
    ("TimeOfDay", fun r => isna r.(Loaded.cat).(TimeOfDay));
    ("DayOfWeek", fun r => isna r.(Loaded.cat).(DayOfWeek));
    ("StateOfChargeStart%", fun r => isna r.(Loaded.StateOfChargeStart_pct));
    ("StateOfChargeEnd%", fun r => isna r.(Loaded.StateOfChargeEnd_pct));
    ("DistanceDrivenKm", fun r => is_nan r.(Loaded.num).(DistanceDrivenKm));
    ("TemperatureC", fun r => is_nan r.(Loaded.num).(TemperatureC));
    ("VehicleAgeYears", fun r => is_nan r.(Loaded.num).(VehicleAgeYears));
    ("ChargerType", fun r => isna r.(Loaded.cat).(ChargerType));
    ("UserType", fun r => isna r.(Loaded.cat).(UserType)) ].

(** [self.df.isna().sum()]: the number of missing cells of each column. *)
Definition isna_sum (df : Loaded.frame) : list (string * nat) :=
  map (fun c => (fst c, length (filter (snd c) df))) isna_columns.

(** The rows where the eight listed columns are missing together. *)
Definition is_ALL_na (df : Loaded.frame) : Loaded.frame :=
  filter (fun r =>
            isna r.(Loaded.cat).(VehicleModel)
            && isna r.(Loaded.cat).(ChargerType)
            && isna r.(Loaded.cat).(ChargingStationLocation)
            && isna r.(Loaded.cat).(TimeOfDay)
            && isna r.(Loaded.cat).(DayOfWeek)
            && isna r.(Loaded.cat).(UserType)
            && isna r.(Loaded.ChargingStartTime)
            && isna r.(Loaded.ChargingEndTime)) df.
End Report.

(** ** [class EVVisualizer]: the row selections of the plots *)

Module EVVisualizer.
(** [cell == label] for a text [label]. *)
Definition eq_str (cell : pyobj) (label : string) : bool :=
  match cell with
  | PyStr s => String.eqb s label
  | _ => false
  end.

(** [self.df[self.df["ChargerType"] != "Level"]] *)
Definition not_level (df : Final.frame) : Final.frame :=
  filter (fun r => negb (eq_str r.(Final.cat).(ChargerType) "Level")) df.

(** [self.df[self.df["UserType"] == "Commuter"]] *)
Definition commuter_df (df : Final.frame) : Final.frame :=
  filter (fun r => eq_str r.(Final.cat).(UserType) "Commuter") df.

(** [self.df[self.df["UserType"] == "Long Distance Traveler"]] *)
Definition longdist_df (df : Final.frame) : Final.frame :=
  filter (fun r => eq_str r.(Final.cat).(UserType) "Long Distance Traveler") df.
End EVVisualizer.

(** ** Texts the symbol stage cannot read *)

Module Unread.
(** One of the three number columns of the row holds a text that is not a
    float once its symbol is removed. *)
Definition unreadable (r : Dated.row) : Prop :=
  PyFloat.float_of_str (PyStr.remove_char "%" (str r.(Dated.StateOfChargeStart_pct)))
  = None
  \/ PyFloat.float_of_str (PyStr.remove_char "%" (str r.(Dated.StateOfChargeEnd_pct)))
     = None
  \/ PyFloat.float_of_str (PyStr.remove_char "$" (str r.(Dated.ChargingCostUSD)))
     = None.
End Unread.

(** 35.01 as Python reads it: the nearest binary64 value. *)
Definition f35_01 : float := 0x1.18147ae147ae1p+5%float.

(** * Properties *)

Import PyStr EVDataProcessor Rowwise.

(** ** Text *)

Example strip_ex : strip "  Audi E-Tro  " = "Audi E-Tro".
Proof. reflexivity. Qed.

Example lower_ex : lower "Audi E-Tro" = "audi e-tro".
Proof. reflexivity. Qed.

Example trailing_hashes_ex :
  re_sub_trailing_hashes "a#b##" = "a#b"
  /\ re_sub_trailing_hashes "Seattle#" = "Seattle"
  /\ re_sub_trailing_hashes "##" = "".
Proof. repeat split; reflexivity. Qed.

Example whitespace_ex : re_sub_whitespace "a  b   c d" = "a b c d".
Proof. reflexivity. Qed.

Example split_ex :
  split_space "2024-01-01 12:30:00" = ["2024-01-01"; "12:30:00"]
  /\ split_space "2024-01-01" = ["2024-01-01"]
  /\ split_space "a  b" = ["a"; ""; "b"].
Proof. repeat split; reflexivity. Qed.

Example fraction_ex : re_sub_fraction "12:30:00.0" = "12:30:00".
Proof. reflexivity. Qed.

(** The reading of decimal texts agrees with the binary64 constants. *)
Example float_of_str_ex :
  map PyFloat.float_of_str
    ["20"; "10.50"; " 1e22 "; "-0.5"; "1_000.5"; "4.9406564584124654e-324";
     "1.7976931348623157e308"; "1e400"; "9007199254740993"]
  = map Some
      [20; 10.5; 1e22; -0.5; 1000.5; 0x1p-1074;
       0x1.fffffffffffffp+1023; infinity; 9007199254740992]%float
  /\ map PyFloat.float_of_str [""; "."; "1e"; "1__0"; "_1"; "1 2"; "abc"; "None"]
     = [None; None; None; None; None; None; None; None]
  /\ option_map is_nan (PyFloat.float_of_str "nan") = Some true.
Proof. repeat split; reflexivity. Qed.

Example main_ex :
  option_map (map Final.ChargingStationId)
    (match main Sample.parsers [Sample.full_row] with
     | Ok t => Some t
     | Raise _ => None
     end) = Some ["123"].
Proof. reflexivity. Qed.

Lemma lower_char_idem (c : ascii) : lower_char (lower_char c) = lower_char c.
Proof. destruct c as [[] [] [] [] [] [] [] []]; reflexivity. Qed.

Lemma lowered_lower (s : string) : lowered (lower s) = true.
Proof.
  induction s as [|c r IH]; simpl; [reflexivity|].
  rewrite lower_char_idem, Ascii.eqb_refl. exact IH.
Qed.

Lemma lower_fixed (s : string) : lowered s = true -> lower s = s.
Proof.
  induction s as [|c r IH]; simpl; [reflexivity|].
  intro H. apply andb_prop in H. destruct H as [Hc Hr].
  apply Ascii.eqb_eq in Hc. rewrite Hc, (IH Hr). reflexivity.
Qed.

Lemma lowered_lstrip (s : string) : lowered s = true -> lowered (lstrip s) = true.
Proof.
  induction s as [|c r IH]; simpl; [reflexivity|].
  intro H. destruct (is_space c).
  - apply andb_prop in H. apply IH, H.
  - exact H.
Qed.

Lemma lowered_drop_trailing (p : ascii -> bool) (s : string) :
  lowered s = true -> lowered (drop_trailing p s) = true.
Proof.
  induction s as [|c r IH]; simpl; [reflexivity|].
  intro H. apply andb_prop in H. destruct H as [Hc Hr].
  specialize (IH Hr). destruct (drop_trailing p r) as [|d r'].
  - destruct (p c); simpl; [reflexivity|]. rewrite Hc. reflexivity.
  - cbn [lowered] in *. rewrite Hc. exact IH.
Qed.

Lemma lowered_strip (s : string) : lowered s = true -> lowered (strip s) = true.
Proof.
  intro H. unfold strip, rstrip. apply lowered_drop_trailing, lowered_lstrip, H.
Qed.

Lemma lowered_collapse (b : bool) (s : string) :
  lowered s = true -> lowered (collapse_from b s) = true.
Proof.
  revert b. induction s as [|c r IH]; intros b H; simpl; [reflexivity|].
  simpl in H. apply andb_prop in H. destruct H as [Hc Hr].
  destruct (is_space c).
  - destruct b; [apply IH, Hr|]. simpl. apply IH, Hr.
  - simpl. rewrite Hc. apply IH, Hr.
Qed.

Lemma ends_with_drop_trailing (p : ascii -> bool) (s : string) :
  ends_with p (drop_trailing p s) = false.
Proof.
  induction s as [|c r IH]; simpl; [reflexivity|].
  destruct (drop_trailing p r) as [|d r'] eqn:E.
  - destruct (p c) eqn:Ep; simpl; [reflexivity | exact Ep].
  - exact IH.
Qed.

Lemma drop_trailing_fixed (p : ascii -> bool) (s : string) :
  ends_with p s = false -> drop_trailing p s = s.
Proof.
  induction s as [|c r IH]; simpl; [reflexivity|].
  destruct r as [|d r'].
  - intro H. simpl. rewrite H. reflexivity.
  - intro H. rewrite (IH H). reflexivity.
Qed.

Lemma starts_clean_lstrip (s : string) : starts_clean (lstrip s) = true.
Proof.
  induction s as [|c r IH]; simpl; [reflexivity|].
  destruct (is_space c) eqn:E; [exact IH|]. simpl. rewrite E. reflexivity.
Qed.

Lemma lstrip_fixed (s : string) : starts_clean s = true -> lstrip s = s.
Proof.
  destruct s as [|c r]; simpl; [reflexivity|].
  intro H. apply negb_true_iff in H. rewrite H. reflexivity.
Qed.

Lemma starts_clean_rstrip (s : string) :
  starts_clean s = true -> starts_clean (rstrip s) = true.
Proof.
  destruct s as [|c r]; simpl; [reflexivity|].
  intro H. apply negb_true_iff in H. unfold rstrip. simpl.
  destruct (drop_trailing is_space r); [rewrite H|]; simpl; rewrite H; reflexivity.
Qed.

Lemma trimmed_strip (s : string) : trimmed (strip s) = true.
Proof.
  unfold trimmed, strip. rewrite starts_clean_rstrip by apply starts_clean_lstrip.
  unfold rstrip. rewrite ends_with_drop_trailing. reflexivity.
Qed.

Lemma strip_fixed (s : string) : trimmed s = true -> strip s = s.
Proof.
  unfold trimmed, strip, rstrip. intro H. apply andb_prop in H.
  destruct H as [H1 H2]. apply negb_true_iff in H2.
  rewrite (lstrip_fixed _ H1). apply drop_trailing_fixed, H2.
Qed.

Lemma is_newline_space (c : ascii) : is_newline c = true -> is_space c = true.
Proof.
  unfold is_newline. intro H. apply Ascii.eqb_eq in H. subst c. reflexivity.
Qed.

Lemma ends_with_weaken (p q : ascii -> bool) (s : string) :
  (forall c, p c = true -> q c = true) ->
  ends_with q s = false -> ends_with p s = false.
Proof.
  intro Hpq. induction s as [|c r IH]; simpl; [reflexivity|].
  destruct r as [|d r'].
  - intro H. destruct (p c) eqn:E; [|reflexivity].
    rewrite (Hpq _ E) in H. discriminate.
  - exact IH.
Qed.

Lemma trimmed_no_final_newline (s : string) :
  trimmed s = true -> ends_with is_newline s = false.
Proof.
  unfold trimmed. intro H. apply andb_prop in H. destruct H as [_ H].
  apply negb_true_iff in H.
  exact (ends_with_weaken _ _ s is_newline_space H).
Qed.

(** Where the text does not end in a newline, [$] only matches at the very
    end and the substitution removes the trailing run of ['#']. *)
Lemma hashes_to_end_all (s : string) :
  ends_with is_newline s = false -> hashes_to_end s = true ->
  drop_trailing is_hash s = EmptyString /\ final_newline s = EmptyString.
Proof.
  induction s as [|c r IH]; simpl; [split; reflexivity|].
  intros Hnl Hh. destruct (is_hash c) eqn:Ec.
  - destruct r as [|d r'].
    + simpl. rewrite Hnl. split; reflexivity.
    + destruct (IH Hnl Hh) as [H1 H2]. rewrite H1, H2. split; reflexivity.
  - apply andb_prop in Hh. destruct Hh as [Hc Hr].
    apply String.eqb_eq in Hr. subst r. simpl in Hnl. congruence.
Qed.

Lemma hashes_to_end_none (s : string) :
  hashes_to_end s = false -> drop_trailing is_hash s <> EmptyString.
Proof.
  induction s as [|c r IH]; simpl; [discriminate|].
  intro Hh. destruct (is_hash c) eqn:Ec.
  - specialize (IH Hh). destruct (drop_trailing is_hash r); [contradiction|discriminate].
  - destruct (drop_trailing is_hash r); discriminate.
Qed.

Lemma re_sub_trailing_hashes_drop (s : string) :
  ends_with is_newline s = false ->
  re_sub_trailing_hashes s = drop_trailing is_hash s.
Proof.
  induction s as [|c r IH]; [reflexivity|].
  intro Hnl. cbn [re_sub_trailing_hashes drop_trailing].
  assert (Hr : ends_with is_newline r = false).
  { destruct r; [reflexivity | exact Hnl]. }
  destruct (is_hash c && hashes_to_end r) eqn:E.
  - apply andb_prop in E. destruct E as [Ec Eh].
    destruct (hashes_to_end_all r Hr Eh) as [H1 H2]. rewrite H1, H2, Ec. reflexivity.
  - rewrite (IH Hr). destruct (drop_trailing is_hash r) as [|d r'] eqn:Ed; [|reflexivity].
    destruct (is_hash c) eqn:Ec; [|reflexivity].
    simpl in E. apply hashes_to_end_none in E. contradiction.
Qed.

Lemma collapse_idem (b : bool) (s : string) :
  collapse_from b (collapse_from b s) = collapse_from b s.
Proof.
  revert b. induction s as [|c r IH]; intro b; simpl; [reflexivity|].
  destruct (is_space c) eqn:Ec.
  - destruct b; [apply IH|]. simpl. rewrite IH. reflexivity.
  - simpl. rewrite Ec, IH. reflexivity.
Qed.

Lemma single_spaced_collapse (b : bool) (s : string) :
  single_spaced b (collapse_from b s) = true.
Proof.
  revert b. induction s as [|c r IH]; intro b; simpl; [reflexivity|].
  destruct (is_space c) eqn:Ec.
  - destruct b; [apply IH|]. simpl. apply IH.
  - simpl. rewrite Ec. apply IH.
Qed.

Lemma collapse_fixed (b : bool) (s : string) :
  single_spaced b s = true -> collapse_from b s = s.
Proof.
  revert b. induction s as [|c r IH]; intro b; simpl; [reflexivity|].
  destruct (is_space c) eqn:Ec.
  - intro H. apply andb_prop in H. destruct H as [H Hr].
    apply andb_prop in H. destruct H as [Hb Hc].
    apply negb_true_iff in Hb. apply Ascii.eqb_eq in Hc. subst b c.
    rewrite (IH _ Hr). reflexivity.
  - intro H. rewrite (IH _ H). reflexivity.
Qed.

Lemma collapse_nonempty (b : bool) (s : string) :
  s <> EmptyString -> ends_with is_space s = false ->
  collapse_from b s <> EmptyString.
Proof.
  revert b. induction s as [|c r IH]; intros b Hne H; [contradiction|].
  simpl. destruct (is_space c) eqn:Ec; [|discriminate].
  destruct b; [|discriminate].
  destruct r as [|d r']; [simpl in H; congruence|].
  apply IH; [discriminate | exact H].
Qed.

Lemma ends_clean_collapse (b : bool) (s : string) :
  ends_with is_space s = false -> ends_with is_space (collapse_from b s) = false.
Proof.
  revert b. induction s as [|c r IH]; intros b H; [reflexivity|].
  destruct r as [|d r'].
  - simpl in H. simpl. rewrite H. simpl. exact H.
  - assert (Hr : ends_with is_space (String d r') = false) by exact H.
    assert (Hne : forall b', collapse_from b' (String d r') <> EmptyString).
    { intro b'. apply collapse_nonempty; [discriminate | exact Hr]. }
    remember (String d r') as t eqn:Et. simpl.
    destruct (is_space c) eqn:Ec.
    + destruct b; [apply IH, Hr|].
      specialize (IH true Hr). specialize (Hne true).
      destruct (collapse_from true t); [contradiction | exact IH].
    + specialize (IH false Hr). specialize (Hne false).
      destruct (collapse_from false t); [contradiction | exact IH].
Qed.

Lemma is_space_lower_char (c : ascii) : is_space (lower_char c) = is_space c.
Proof. destruct c as [[] [] [] [] [] [] [] []]; reflexivity. Qed.

Lemma ends_with_space_lower (s : string) :
  ends_with is_space (lower s) = ends_with is_space s.
Proof.
  induction s as [|c r IH]; [reflexivity|].
  destruct r as [|d r']; [apply is_space_lower_char | exact IH].
Qed.

Lemma trimmed_lower (s : string) : trimmed (lower s) = trimmed s.
Proof.
  unfold trimmed. rewrite ends_with_space_lower.
  destruct s as [|c r]; [reflexivity|]. simpl. rewrite is_space_lower_char. reflexivity.
Qed.

Lemma trimmed_collapse (s : string) :
  trimmed s = true -> trimmed (re_sub_whitespace s) = true.
Proof.
  unfold trimmed, re_sub_whitespace. intro H. apply andb_prop in H.
  destruct H as [H1 H2]. apply negb_true_iff in H2.
  rewrite (ends_clean_collapse false s H2).
  destruct s as [|c r]; [reflexivity|]. simpl in *.
  apply negb_true_iff in H1. rewrite H1. simpl. rewrite H1. reflexivity.
Qed.

Lemma length_lstrip (s : string) : String.length (lstrip s) <= String.length s.
Proof.
  induction s as [|c r IH]; simpl; [lia|]. destruct (is_space c); simpl; lia.
Qed.

Lemma length_drop_trailing (p : ascii -> bool) (s : string) :
  String.length (drop_trailing p s) <= String.length s.
Proof.
  induction s as [|c r IH]; simpl; [lia|].
  destruct (drop_trailing p r); [destruct (p c)|]; simpl in *; lia.
Qed.

Lemma length_drop_trailing_lt (p : ascii -> bool) (s : string) :
  ends_with p s = true -> String.length (drop_trailing p s) < String.length s.
Proof.
  induction s as [|c r IH]; simpl; [discriminate|].
  destruct r as [|d r'].
  - intro H. simpl. rewrite H. simpl. lia.
  - intro H. specialize (IH H).
    destruct (drop_trailing p (String d r')); [destruct (p c)|]; simpl in *; lia.
Qed.

Lemma length_strip (s : string) : String.length (strip s) <= String.length s.
Proof.
  unfold strip, rstrip.
  pose proof (length_drop_trailing is_space (lstrip s)).
  pose proof (length_lstrip s). lia.
Qed.

Lemma length_collapse (b : bool) (s : string) :
  String.length (collapse_from b s) <= String.length s.
Proof.
  revert b. induction s as [|c r IH]; intro b; simpl; [lia|].
  destruct (is_space c); [destruct b|]; simpl;
    try (specialize (IH true); lia); specialize (IH false); lia.
Qed.

(** ** The normalizer *)

(** The text the normalizer returns when it returns one: the regular
    expression [[#]+$] acts on a trimmed text, where it removes the trailing
    run of ['#']. *)
Lemma normalize_text_value (x : pyobj) :
  isna x = false ->
  String.eqb (lower (strip (str x))) "nan" = false ->
  _normalize_text x =
  PyStr (re_sub_whitespace
           (strip (drop_trailing is_hash (lower (strip (str x)))))).
Proof.
  intros Hx Hnan.
  assert (E : re_sub_trailing_hashes (lower (strip (str x)))
              = drop_trailing is_hash (lower (strip (str x)))).
  { apply re_sub_trailing_hashes_drop, trimmed_no_final_newline.
    rewrite trimmed_lower. apply trimmed_strip. }
  unfold _normalize_text. destruct x; try discriminate; rewrite Hnan, E; reflexivity.
Qed.

Lemma normalize_text_nan (x : pyobj) :
  String.eqb (lower (strip (str x))) "nan" = true -> _normalize_text x = PyNaN.
Proof.
  intro H. unfold _normalize_text. destruct x; try reflexivity; rewrite H; reflexivity.
Qed.

Lemma normalize_text_cases (x : pyobj) :
  _normalize_text x = PyNaN \/ exists t, _normalize_text x = PyStr t.
Proof.
  unfold _normalize_text. destruct x; try (left; reflexivity);
    destruct (String.eqb _ "nan"); (left; reflexivity) || (right; eexists; reflexivity).
Qed.

Lemma normalize_text_shape (x : pyobj) (t : string) :
  _normalize_text x = PyStr t ->
  trimmed t = true /\ lowered t = true /\ single_spaced false t = true.
Proof.
  intro H.
  assert (Hx : isna x = false) by (destruct x; try reflexivity; discriminate).
  destruct (String.eqb (lower (strip (str x))) "nan") eqn:Hnan.
  - rewrite (normalize_text_nan x Hnan) in H. discriminate.
  - rewrite (normalize_text_value x Hx Hnan) in H. injection H as <-.
    split; [|split].
    + apply trimmed_collapse, trimmed_strip.
    + apply lowered_collapse, lowered_strip, lowered_drop_trailing, lowered_lower.
    + apply single_spaced_collapse.
Qed.

(** A text the normalizer returned is returned again as it is, unless it
    is ["nan"] or ends in ['#']. *)
Lemma normalize_text_fixed (t : string) :
  trimmed t = true -> lowered t = true -> single_spaced false t = true ->
  String.eqb t "nan" = false -> ends_with is_hash t = false ->
  _normalize_text (PyStr t) = PyStr t.
Proof.
  intros Ht Hl Hs Hnan Hh.
  assert (E : lower (strip (str (PyStr t))) = t).
  { simpl. rewrite (strip_fixed t Ht). apply lower_fixed, Hl. }
  rewrite normalize_text_value; [|reflexivity|rewrite E; exact Hnan].
  rewrite E, (drop_trailing_fixed is_hash t Hh), (strip_fixed t Ht).
  unfold re_sub_whitespace. rewrite (collapse_fixed false t Hs). reflexivity.
Qed.

(** A text the normalizer returned and that ends in ['#'] comes back
    shorter. *)
Lemma normalize_text_shorter (t t2 : string) :
  trimmed t = true -> lowered t = true ->
  ends_with is_hash t = true ->
  _normalize_text (PyStr t) = PyStr t2 -> t2 <> t.
Proof.
  intros Ht Hl Hh E.
  assert (Ex : lower (strip (str (PyStr t))) = t).
  { simpl. rewrite (strip_fixed t Ht). apply lower_fixed, Hl. }
  destruct (String.eqb (lower (strip (str (PyStr t)))) "nan") eqn:Hnan.
  - rewrite (normalize_text_nan _ Hnan) in E. discriminate.
  - rewrite normalize_text_value in E by (reflexivity || exact Hnan).
    rewrite Ex in E. injection E as <-. intro Heq.
    apply (f_equal String.length) in Heq.
    pose proof (length_collapse false (strip (drop_trailing is_hash t))).
    pose proof (length_strip (drop_trailing is_hash t)).
    pose proof (length_drop_trailing_lt is_hash t Hh).
    unfold re_sub_whitespace in Heq. lia.
Qed.

(** ** Dictionaries *)

Lemma dict_get_In (d : dict) (k v : string) :
  dict_get d k = Some v -> In (k, v) d.
Proof.
  induction d as [|[k' v'] d IH]; simpl; [discriminate|].
  destruct (String.eqb k' k) eqn:E.
  - intro H. injection H as <-. apply String.eqb_eq in E. subst k'. left. reflexivity.
  - intro H. right. apply IH, H.
Qed.

(** The columns as [clean_series] and [map] see them. *)
Lemma clean_series_map (aliases canon : dict) (s : Pandas.Series) :
  clean_series aliases canon s = map (clean_value aliases canon) s.
Proof.
  unfold clean_series, _apply_aliases, _to_canonical, Pandas.replace,
    Pandas.replace_dict, Pandas.fillna.
  rewrite !map_map. reflexivity.
Qed.

(** *** What the cleaning of one cell needs of a pair of dictionaries *)

Section Rules.
Variables aliases canon : dict.

Hypothesis targets_keyed : forall k t,
  dict_get aliases k = Some t -> exists label, dict_get canon t = Some label.

Hypothesis labels_kept : forall k label,
  dict_get canon k = Some label ->
  String.eqb label "unknown" = false /\ String.eqb label "Unknown" = false
  /\ settled (PyStr label) = true
  /\ clean_value aliases canon (PyStr label) = PyStr label.

Hypothesis missing_kept : clean_value aliases canon PyNaN = PyNaN.

(** A cleaned cell is a missing marker, a canonical label, or a normalized
    text that no dictionary knows. *)
Lemma clean_value_cases (x : pyobj) :
  clean_value aliases canon x = PyNaN
  \/ (exists k label,
        dict_get canon k = Some label /\ clean_value aliases canon x = PyStr label)
  \/ (exists t,
        clean_value aliases canon x = PyStr t
        /\ _normalize_text (if isna x then PyStr "Unknown" else x) = PyStr t
        /\ dict_get aliases t = None /\ dict_get canon t = None
        /\ String.eqb t "unknown" = false /\ String.eqb t "Unknown" = false).
Proof.
  unfold clean_value.
  destruct (normalize_text_cases (if isna x then PyStr "Unknown" else x))
    as [E|[t E]]; rewrite E; [left; reflexivity|].
  simpl Pandas.replace_by.
  destruct (dict_get aliases t) as [t1|] eqn:Ea.
  - destruct (targets_keyed _ _ Ea) as [label El].
    destruct (labels_kept _ _ El) as (U1 & U2 & _ & _).
    right; left. exists t1, label. split; [exact El|].
    simpl. rewrite El. simpl. rewrite U1. simpl. rewrite U2. reflexivity.
  - simpl. destruct (dict_get canon t) as [label|] eqn:Ec.
    + destruct (labels_kept _ _ Ec) as (U1 & U2 & _ & _).
      right; left. exists t, label. split; [exact Ec|].
      simpl. rewrite U1. simpl. rewrite U2. reflexivity.
    + simpl. destruct (String.eqb t "unknown") eqn:U1; [left; reflexivity|].
      simpl. destruct (String.eqb t "Unknown") eqn:U2; [left; reflexivity|].
      right; right. exists t. repeat split; assumption || reflexivity.
Qed.

Lemma clean_value_settled_fixed (x : pyobj) :
  settled (clean_value aliases canon x) = true ->
  clean_value aliases canon (clean_value aliases canon x)
  = clean_value aliases canon x.
Proof.
  destruct (clean_value_cases x) as [E|[(k & label & Ek & E)|(t & E & En & Ea & Ec & U1 & U2)]];
    rewrite E.
  - intros _. exact missing_kept.
  - intros _. apply (labels_kept _ _ Ek).
  - simpl. intro H. apply andb_prop in H. destruct H as [Hnan Hh].
    apply negb_true_iff in Hnan, Hh.
    destruct (normalize_text_shape _ _ En) as (Ht & Hl & Hs).
    unfold clean_value. simpl isna. cbv iota.
    rewrite (normalize_text_fixed t Ht Hl Hs Hnan Hh).
    simpl. rewrite Ea. simpl. rewrite Ec. simpl. rewrite U1. simpl. rewrite U2.
    reflexivity.
Qed.

(** A cleaned cell that is not settled is changed by a second cleaning. *)
Lemma clean_value_unsettled_moves (x : pyobj) :
  settled (clean_value aliases canon x) = false ->
  clean_value aliases canon (clean_value aliases canon x)
  <> clean_value aliases canon x.
Proof.
  destruct (clean_value_cases x) as [E|[(k & label & Ek & E)|(t & E & En & Ea & Ec & U1 & U2)]];
    rewrite E.
  - discriminate.
  - intro H. destruct (labels_kept _ _ Ek) as (_ & _ & S & _). congruence.
  - intro H. destruct (normalize_text_shape _ _ En) as (Ht & Hl & _).
    destruct (clean_value_cases (PyStr t))
      as [E2|[(k2 & l2 & Ek2 & E2)|(t2 & E2 & En2 & _)]]; rewrite E2.
    + discriminate.
    + intro Heq. injection Heq as ->.
      destruct (labels_kept _ _ Ek2) as (_ & _ & S & _). congruence.
    + intro Heq. injection Heq as ->. simpl in En2, H.
      destruct (String.eqb t "nan") eqn:Hnan.
      * apply String.eqb_eq in Hnan. subst t. discriminate.
      * simpl in H. apply negb_false_iff in H.
        exact (normalize_text_shorter t t Ht Hl H En2 eq_refl).
Qed.

Lemma clean_value_fixed_iff (x : pyobj) :
  clean_value aliases canon (clean_value aliases canon x)
  = clean_value aliases canon x
  <-> settled (clean_value aliases canon x) = true.
Proof.
  split; [|apply clean_value_settled_fixed].
  intro H. destruct (settled (clean_value aliases canon x)) eqn:S; [reflexivity|].
  destruct (clean_value_unsettled_moves x S H).
Qed.

Lemma clean_value_alias (x : pyobj) (k t : string) :
  dict_get aliases k = Some t -> _normalize_text x = PyStr k ->
  exists label,
    dict_get canon t = Some label
    /\ _to_canonical (_apply_aliases (map _normalize_text [x]) aliases) canon
       = [PyStr label]
    /\ clean_value aliases canon x = PyStr label.
Proof.
  intros Ea En. destruct (targets_keyed _ _ Ea) as [label El].
  destruct (labels_kept _ _ El) as (U1 & U2 & _ & _).
  exists label. split; [exact El|].
  assert (Hx : isna x = false) by (destruct x; try reflexivity; discriminate).
  split.
  - simpl. rewrite En. simpl. rewrite Ea. simpl. rewrite El. reflexivity.
  - unfold clean_value. rewrite Hx, En. simpl. rewrite Ea. simpl. rewrite El.
    simpl. rewrite U1. simpl. rewrite U2. reflexivity.
Qed.
End Rules.

Lemma rules_targets_keyed (col : Col.t) (k t : string) :
  dict_get (aliases_of col) k = Some t ->
  exists label, dict_get (canon_of col) t = Some label.
Proof.
  intro H. apply dict_get_In in H.
  destruct col; simpl in H;
    repeat (destruct H as [H|H]; [injection H as <- <-; eexists; reflexivity|]);
    contradiction.
Qed.

Lemma rules_labels_kept (col : Col.t) (k label : string) :
  dict_get (canon_of col) k = Some label ->
  String.eqb label "unknown" = false /\ String.eqb label "Unknown" = false
  /\ settled (PyStr label) = true
  /\ clean_value (aliases_of col) (canon_of col) (PyStr label) = PyStr label.
Proof.
  intro H. apply dict_get_In in H.
  destruct col; simpl in H;
    repeat (destruct H as [H|H];
            [injection H as <- <-; repeat split; vm_compute; reflexivity|]);
    contradiction.
Qed.

Lemma rules_missing_kept (col : Col.t) :
  clean_value (aliases_of col) (canon_of col) PyNaN = PyNaN.
Proof. destruct col; vm_compute; reflexivity. Qed.

Lemma collapse_spaceless (s : string) :
  spaceless (re_sub_whitespace s) = true -> re_sub_whitespace s = s.
Proof.
  unfold re_sub_whitespace. induction s as [|c r IH]; simpl; [reflexivity|].
  destruct (is_space c) eqn:Ec; simpl.
  - discriminate.
  - rewrite Ec. simpl. intro H. rewrite (IH H). reflexivity.
Qed.

(** The text the specification's wording arrives at is ["unknown"] only
    when the normalizer's is. *)
Lemma normal_form_unknown (x : pyobj) :
  isna x = false -> Spec.normal_form (str x) = "unknown" ->
  _normalize_text x = PyStr "unknown".
Proof.
  unfold Spec.normal_form. intros Hx H.
  assert (E : drop_trailing is_hash (lower (strip (str x))) = "unknown").
  { rewrite <- H. symmetry. apply collapse_spaceless. rewrite H. reflexivity. }
  rewrite normalize_text_value; [rewrite E; reflexivity | exact Hx |].
  destruct (String.eqb_spec (lower (strip (str x))) "nan") as [En|]; [|reflexivity].
  rewrite En in E. discriminate.
Qed.

(** ** The cleaning stage on the table *)

Lemma set_column_map (c : Col.t) (f : pyobj -> pyobj) (df : Loaded.frame) :
  Loaded.set_column c (map f (Loaded.get_column c df)) df
  = map (fun r => Loaded.set_cell c (f (get_cat c r.(Loaded.cat))) r) df.
Proof.
  induction df as [|r df IH]; simpl; [reflexivity|]. rewrite IH. reflexivity.
Qed.

Lemma clean_categorical_column_map (c : Col.t) (aliases canon : dict)
    (df : Loaded.frame) :
  _clean_categorical_column c aliases canon df
  = map (fun r => Loaded.set_cell c
                    (clean_value aliases canon (get_cat c r.(Loaded.cat))) r) df.
Proof.
  unfold _clean_categorical_column. rewrite clean_series_map. apply set_column_map.
Qed.

Lemma clean_categoricals_auto_map (df : Loaded.frame) :
  clean_categoricals_auto df = map clean_row df.
Proof.
  unfold clean_categoricals_auto. rewrite !clean_categorical_column_map, !map_map.
  apply map_ext. intros [[] ? ? ? ? ? ? ?]. reflexivity.
Qed.

Lemma get_cat_clean (col : Col.t) (c : categoricals) :
  get_cat col (clean_cats c)
  = clean_value (aliases_of col) (canon_of col) (get_cat col c).
Proof. destruct col; reflexivity. Qed.

Lemma isna_categoricals_cell (col : Col.t) (c : categoricals) :
  isna (get_cat col c) = true -> isna_categoricals c = true.
Proof.
  unfold isna_categoricals. destruct col; simpl; intros ->;
    rewrite ?orb_true_r; reflexivity.
Qed.

(** A row whose cleaned form holds a missing value leaves no trace in the
    table after the drop. *)
Lemma dropna_clean_skips (df1 df2 : Loaded.frame) (r : Loaded.row) :
  Loaded.isna_any (clean_row r) = true ->
  handle_missing_and_dropna (clean_categoricals_auto (df1 ++ r :: df2)%list)
  = (handle_missing_and_dropna (clean_categoricals_auto df1)
     ++ handle_missing_and_dropna (clean_categoricals_auto df2))%list.
Proof.
  intro H. unfold handle_missing_and_dropna.
  rewrite !clean_categoricals_auto_map, map_app, filter_app. simpl.
  rewrite H. reflexivity.
Qed.

Lemma clean_missing_cell_row (col : Col.t) (r : Loaded.row) :
  clean_value (aliases_of col) (canon_of col) (get_cat col r.(Loaded.cat)) = PyNaN ->
  Loaded.isna_any (clean_row r) = true.
Proof.
  intro H. unfold Loaded.isna_any.
  rewrite (isna_categoricals_cell col); [reflexivity|].
  simpl. rewrite get_cat_clean, H. reflexivity.
Qed.

Lemma clean_value_missing (col : Col.t) (x : pyobj) :
  isna x = true -> clean_value (aliases_of col) (canon_of col) x = PyNaN.
Proof.
  intro H. unfold clean_value. rewrite H. destruct col; vm_compute; reflexivity.
Qed.

Lemma dropna_no_missing (df : Loaded.frame) (r : Loaded.row) :
  In r (handle_missing_and_dropna df) <-> In r df /\ Loaded.isna_any r = false.
Proof.
  unfold handle_missing_and_dropna. rewrite filter_In, negb_true_iff. reflexivity.
Qed.

Lemma starts_clean_drop_trailing (p : ascii -> bool) (s : string) :
  starts_clean s = true -> starts_clean (drop_trailing p s) = true.
Proof.
  destruct s as [|c r]; simpl; [reflexivity|].
  intro H. destruct (drop_trailing p r); [destruct (p c)|]; simpl; auto.
Qed.

(** ** The claims on the normalizer and the categorical cleaning *)

(** C6, amended.  For [None], a float NaN, or an input whose trimmed and
    lowercased text is ["nan"], [_normalize_text] returns the missing
    marker.  For any other input it returns the text of the input trimmed,
    lowercased, without its trailing run of ['#'], trimmed again, and with
    every whitespace run collapsed to one space; that text is trimmed, is
    its own lowercase and holds whitespace only as single spaces, and it is
    the text the specification's wording gives whenever no whitespace
    stands before the trailing ['#'] characters. *)
Theorem normalize_text_correct (x : pyobj) :
  (isna x = true \/ lower (strip (str x)) = "nan" -> _normalize_text x = PyNaN)
  /\ (isna x = false -> lower (strip (str x)) <> "nan" ->
      exists t,
        _normalize_text x = PyStr t
        /\ t = re_sub_whitespace
                 (strip (drop_trailing is_hash (lower (strip (str x)))))
        /\ trimmed t = true /\ lowered t = true /\ single_spaced false t = true
        /\ (ends_with is_space (drop_trailing is_hash (lower (strip (str x)))) = false ->
            PyStr t = Spec.normalize x)).
Proof.
  split.
  - intros [H|H].
    + destruct x; try discriminate; reflexivity.
    + apply normalize_text_nan. rewrite H. reflexivity.
  - intros Hx Hnan. eexists. split; [|split; [reflexivity|]].
    + apply normalize_text_value; [exact Hx|].
      destruct (String.eqb_spec (lower (strip (str x))) "nan"); [contradiction|reflexivity].
    + split; [apply trimmed_collapse, trimmed_strip|].
      split; [apply lowered_collapse, lowered_strip, lowered_drop_trailing, lowered_lower|].
      split; [apply single_spaced_collapse|].
      intro Hsp. rewrite strip_fixed.
      * destruct x; try discriminate; reflexivity.
      * unfold trimmed. rewrite Hsp, starts_clean_drop_trailing; [reflexivity|].
        assert (Ht : trimmed (lower (strip (str x))) = true)
          by (rewrite trimmed_lower; apply trimmed_strip).
        unfold trimmed in Ht. apply andb_prop in Ht. apply Ht.
Qed.

Lemma normalize_text_correct_witness :
  _normalize_text (PyStr " NaN ") = PyNaN
  /\ _normalize_text (PyStr "  Tesla   MODEL 3## ") = PyStr "tesla model 3"
  /\ _normalize_text (PyStr "  Tesla   MODEL 3## ")
     = Spec.normalize (PyStr "  Tesla   MODEL 3## ").
Proof.
  split.
  - apply (normalize_text_correct (PyStr " NaN ")). right. reflexivity.
  - destruct (normalize_text_correct (PyStr "  Tesla   MODEL 3## ")) as [_ H].
    destruct H as (t & E & Et & _ & _ & _ & Hs);
      [reflexivity | vm_compute; discriminate |].
    rewrite E. split.
    + rewrite Et. reflexivity.
    + apply Hs. reflexivity.
Defined.

(** C6 as worded fails on the text ["nan"], which is not [None] and not a
    float NaN and still comes back missing, and on ["a #"], where the
    source trims once more after the ['#'] characters are gone. *)
Lemma normalize_text_not_as_worded :
  (_normalize_text (PyStr "nan") = PyNaN
   /\ Spec.normalize (PyStr "nan") = PyStr "nan")
  /\ (_normalize_text (PyStr "a #") = PyStr "a"
      /\ Spec.normalize (PyStr "a #") = PyStr "a ").
Proof. repeat split; reflexivity. Qed.

(** C2.  For every key [k] of a column's alias dictionary, with target [t],
    and every raw value whose normalized form is [k], the chain normalize,
    alias, canonical yields the canonical dictionary's value for [t], and so
    does the whole cleaning of the column; raw ["Audi E-Tro  "] comes out
    as ["Audi e-Tron"]. *)
Theorem alias_round_trip :
  (forall (col : Col.t) (k t : string) (x : pyobj),
      dict_get (aliases_of col) k = Some t ->
      _normalize_text x = PyStr k ->
      exists label,
        dict_get (canon_of col) t = Some label
        /\ _to_canonical
             (_apply_aliases (map _normalize_text [x]) (aliases_of col))
             (canon_of col) = [PyStr label]
        /\ clean_series (aliases_of col) (canon_of col) [x] = [PyStr label])
  /\ clean_series VEHICLE_ALIASES VEHICLE_CANON [PyStr "Audi E-Tro  "]
     = [PyStr "Audi e-Tron"].
Proof.
  split; [|reflexivity].
  intros col k t x Ea En.
  destruct (clean_value_alias (aliases_of col) (canon_of col)
              (rules_targets_keyed col) (rules_labels_kept col) x k t Ea En)
    as (label & El & E1 & E2).
  exists label. split; [exact El|]. split; [exact E1|].
  rewrite clean_series_map. simpl. rewrite E2. reflexivity.
Qed.

Lemma alias_round_trip_witness :
  exists label,
    dict_get VEHICLE_CANON "audi e-tron" = Some label
    /\ _to_canonical
         (_apply_aliases (map _normalize_text [PyStr "Audi E-Tro  "]) VEHICLE_ALIASES)
         VEHICLE_CANON = [PyStr label]
    /\ clean_series VEHICLE_ALIASES VEHICLE_CANON [PyStr "Audi E-Tro  "]
       = [PyStr label].
Proof.
  apply (proj1 alias_round_trip Col.VehicleModel "audi e-tro" "audi e-tron"
           (PyStr "Audi E-Tro  ")); reflexivity.
Defined.

(** C3, amended.  A second run of the cleaning stage leaves a cleaned column
    as it is exactly when every cell of it is a missing marker, a canonical
    label, or another text that is not ["nan"] and does not end in ['#'];
    this holds for each of the six columns, and a table whose rows all are
    such is left as it is.  Missing markers and canonical labels always are
    such cells. *)
Theorem clean_twice_settled :
  (forall (col : Col.t) (s : Pandas.Series),
      clean_series (aliases_of col) (canon_of col)
        (clean_series (aliases_of col) (canon_of col) s)
      = clean_series (aliases_of col) (canon_of col) s
      <-> forallb settled (clean_series (aliases_of col) (canon_of col) s) = true)
  /\ (forall df : Loaded.frame,
        forallb settled_row (clean_categoricals_auto df) = true ->
        clean_categoricals_auto (clean_categoricals_auto df)
        = clean_categoricals_auto df)
  /\ (forall (col : Col.t) (k label : string),
        dict_get (canon_of col) k = Some label -> settled (PyStr label) = true)
  /\ (forall x : pyobj, isna x = true -> settled x = true).
Proof.
  assert (cell : forall col x,
             clean_value (aliases_of col) (canon_of col)
               (clean_value (aliases_of col) (canon_of col) x)
             = clean_value (aliases_of col) (canon_of col) x
             <-> settled (clean_value (aliases_of col) (canon_of col) x) = true).
  { intros col x. apply clean_value_fixed_iff.
    - apply rules_targets_keyed.
    - apply rules_labels_kept.
    - apply rules_missing_kept. }
  split; [|split; [|split]].
  - intros col s. rewrite !clean_series_map, map_map, forallb_forall. split.
    + intros H y Hy. apply in_map_iff in Hy. destruct Hy as (x & <- & Hx).
      apply cell. revert x Hx. induction s as [|a s IH]; [intros ? []|].
      simpl in H. injection H as Ha Hs. intros x [<-|Hx]; [exact Ha | exact (IH Hs x Hx)].
    + intro H. apply map_ext_in. intros x Hx. apply cell, H, in_map, Hx.
  - intro df. rewrite !clean_categoricals_auto_map, map_map.
    intro H. apply map_ext_in. intros r Hr.
    rewrite forallb_forall in H. specialize (H _ (in_map clean_row _ _ Hr)).
    unfold settled_row in H. simpl in H.
    repeat (apply andb_prop in H; destruct H as [H ?]).
    unfold clean_row, clean_cats. simpl.
    rewrite (proj2 (cell Col.VehicleModel _)),
      (proj2 (cell Col.ChargingStationLocation _)),
      (proj2 (cell Col.TimeOfDay _)), (proj2 (cell Col.DayOfWeek _)),
      (proj2 (cell Col.ChargerType _)), (proj2 (cell Col.UserType _)); trivial.
  - intros col k label H. apply (rules_labels_kept col k label H).
  - intros x H. destruct x; try discriminate; reflexivity.
Qed.

Lemma clean_twice_settled_witness :
  clean_series LOCATION_ALIASES LOCATION_CANON
    (clean_series LOCATION_ALIASES LOCATION_CANON
       [PyStr "Seattle#"; PyNone; PyStr " new  yor"; PyStr "Springfield"])
  = clean_series LOCATION_ALIASES LOCATION_CANON
      [PyStr "Seattle#"; PyNone; PyStr " new  yor"; PyStr "Springfield"].
Proof.
  apply (proj1 clean_twice_settled Col.ChargingStationLocation). reflexivity.
Defined.

(** C3 as worded fails: ["Seattle# #"] is cleaned to ["seattle#"], which a
    second run turns into ["Seattle"], and ["nan#"] is cleaned to the text
    ["nan"], which a second run turns into a missing marker. *)
Lemma clean_twice_differs :
  clean_series LOCATION_ALIASES LOCATION_CANON [PyStr "Seattle# #"; PyStr "nan#"]
  = [PyStr "seattle#"; PyStr "nan"]
  /\ clean_series LOCATION_ALIASES LOCATION_CANON [PyStr "seattle#"; PyStr "nan"]
     = [PyStr "Seattle"; PyNaN]
  /\ clean_series LOCATION_ALIASES LOCATION_CANON
       (clean_series LOCATION_ALIASES LOCATION_CANON
          [PyStr "Seattle# #"; PyStr "nan#"])
     <> clean_series LOCATION_ALIASES LOCATION_CANON
          [PyStr "Seattle# #"; PyStr "nan#"].
Proof. repeat split; try reflexivity. vm_compute. discriminate. Qed.

(** C10, amended.  A cell whose text, trimmed, lowercased, stripped of its
    trailing ['#'] characters and with its whitespace collapsed, is
    ["unknown"], and a cell whose text, trimmed and lowercased, is ["nan"]
    before any ['#'] is stripped, become missing markers under the cleaning
    of any of the six columns, and the row that holds such a cell is gone
    after the missing-row drop. *)
Theorem unknown_and_nan_become_missing (col : Col.t) (x : pyobj) :
  Spec.normal_form (str x) = "unknown" \/ lower (strip (str x)) = "nan" ->
  clean_series (aliases_of col) (canon_of col) [x] = [PyNaN]
  /\ forall (df1 df2 : Loaded.frame) (r : Loaded.row),
       get_cat col r.(Loaded.cat) = x ->
       handle_missing_and_dropna (clean_categoricals_auto (df1 ++ r :: df2)%list)
       = (handle_missing_and_dropna (clean_categoricals_auto df1)
          ++ handle_missing_and_dropna (clean_categoricals_auto df2))%list.
Proof.
  intro H.
  assert (E : clean_value (aliases_of col) (canon_of col) x = PyNaN).
  { destruct (isna x) eqn:Hx; [apply clean_value_missing, Hx|].
    unfold clean_value. rewrite Hx. destruct H as [H|H].
    - rewrite (normal_form_unknown x Hx H). destruct col; reflexivity.
    - rewrite normalize_text_nan by (rewrite H; reflexivity).
      destruct col; reflexivity. }
  split.
  - rewrite clean_series_map. simpl. rewrite E. reflexivity.
  - intros df1 df2 r Hr. apply dropna_clean_skips, (clean_missing_cell_row col).
    rewrite Hr. exact E.
Qed.

Lemma unknown_and_nan_become_missing_witness :
  clean_series CHARGER_ALIASES CHARGER_CANON [PyStr " UNKNOWN## "] = [PyNaN]
  /\ clean_series CHARGER_ALIASES CHARGER_CANON [PyStr "Unknown"] = [PyNaN]
  /\ clean_series CHARGER_ALIASES CHARGER_CANON [PyStr "nan"] = [PyNaN].
Proof.
  split; [|split].
  - apply (unknown_and_nan_become_missing Col.ChargerType (PyStr " UNKNOWN## ")).
    left. reflexivity.
  - apply (unknown_and_nan_become_missing Col.ChargerType (PyStr "Unknown")).
    left. reflexivity.
  - apply (unknown_and_nan_become_missing Col.ChargerType (PyStr "nan")).
    right. reflexivity.
Defined.

(** C10 as worded fails on ["nan#"]: with the ['#'] stripped the text is
    ["nan"], yet the cell is cleaned to the text ["nan"], which is not a
    missing marker, and the row stays in the table after the drop. *)
Lemma nan_hash_stays :
  Spec.normal_form "nan#" = "nan"
  /\ clean_series VEHICLE_ALIASES VEHICLE_CANON [PyStr "nan#"] = [PyStr "nan"]
  /\ isna (PyStr "nan") = false
  /\ exists r,
       handle_missing_and_dropna
         (clean_categoricals_auto
            [Sample.session
               {| VehicleModel := PyStr "nan#";
                  ChargingStationLocation := PyStr "Seattle";
                  TimeOfDay := PyStr "Evening"; DayOfWeek := PyStr "Monday";
                  ChargerType := PyStr "Level 2"; UserType := PyStr "Commuter" |}
               (PyStr "2024-01-01 12:00:00")]) = [r]
       /\ r.(Loaded.cat).(VehicleModel) = PyStr "nan".
Proof.
  split; [reflexivity|]. split; [reflexivity|]. split; [reflexivity|].
  eexists. split; reflexivity.
Qed.

(** C7.  Through the cleaning chain of any of the six columns a raw [None]
    (or NaN) comes out as a missing marker, and a row with such a cell in a
    categorical column is gone after the missing-row drop, whatever its
    other columns hold: the table is the one obtained without that row. *)
Theorem missing_preserved (col : Col.t) :
  clean_series (aliases_of col) (canon_of col) [PyNone] = [PyNaN]
  /\ (forall x : pyobj,
        isna x = true ->
        clean_series (aliases_of col) (canon_of col) [x] = [PyNaN])
  /\ (forall (df1 df2 : Loaded.frame) (r : Loaded.row),
        isna (get_cat col r.(Loaded.cat)) = true ->
        handle_missing_and_dropna (clean_categoricals_auto (df1 ++ r :: df2)%list)
        = (handle_missing_and_dropna (clean_categoricals_auto df1)
           ++ handle_missing_and_dropna (clean_categoricals_auto df2))%list).
Proof.
  assert (E : forall x, isna x = true ->
                clean_series (aliases_of col) (canon_of col) [x] = [PyNaN]).
  { intros x Hx. rewrite clean_series_map. simpl.
    rewrite (clean_value_missing col x Hx). reflexivity. }
  split; [apply E; reflexivity|]. split; [exact E|].
  intros df1 df2 r Hr.
  apply dropna_clean_skips, (clean_missing_cell_row col), clean_value_missing, Hr.
Qed.

Lemma missing_preserved_witness :
  handle_missing_and_dropna
    (clean_categoricals_auto
       [Sample.full_row;
        Sample.session
          {| VehicleModel := PyNone;
             ChargingStationLocation := PyStr "Seattle";
             TimeOfDay := PyStr "Evening"; DayOfWeek := PyStr "Monday";
             ChargerType := PyStr "Level 2"; UserType := PyStr "Commuter" |}
          (PyStr "2024-01-01 12:00:00")])
  = (handle_missing_and_dropna (clean_categoricals_auto [Sample.full_row])
     ++ handle_missing_and_dropna (clean_categoricals_auto []))%list.
Proof.
  apply (proj2 (proj2 (missing_preserved Col.VehicleModel)) [Sample.full_row] []).
  reflexivity.
Defined.

(** ** Exceptions over a column *)

Lemma exn_unique (e : exn) : e = ValueError.
Proof. destruct e. reflexivity. Qed.

Lemma mapM_raise {A B : Type} (f : A -> result B) (l : list A) (a : A) :
  In a l -> f a = Raise ValueError -> mapM f l = Raise ValueError.
Proof.
  induction l as [|b l IH]; simpl; [contradiction|].
  intros [->|Hin] Ha.
  - rewrite Ha. reflexivity.
  - destruct (f b) as [y|e]; simpl; [|rewrite (exn_unique e); reflexivity].
    rewrite (IH Hin Ha). reflexivity.
Qed.

Lemma mapM_map {A B : Type} (f : A -> result B) (g : A -> B) (l : list A) :
  (forall a, In a l -> f a = Ok (g a)) -> mapM f l = Ok (map g l).
Proof.
  induction l as [|b l IH]; simpl; [reflexivity|].
  intro H. rewrite (H b (or_introl eq_refl)). simpl.
  rewrite IH by (intros a Ha; apply H; right; exact Ha). reflexivity.
Qed.

Lemma mapM_inv {A B : Type} (f : A -> result B) (l : list A) (l' : list B) :
  mapM f l = Ok l' -> Forall2 (fun a b => f a = Ok b) l l'.
Proof.
  revert l'. induction l as [|a l IH]; simpl; intros l' H.
  - injection H as <-. constructor.
  - destruct (f a) as [b|e] eqn:Ea; simpl in H; [|discriminate].
    destruct (mapM f l) as [bs|e]; simpl in H; [|discriminate].
    injection H as <-. constructor; [exact Ea | apply IH; reflexivity].
Qed.

Lemma mapM_map_inv {A B C : Type} (f : B -> result C) (g : A -> B)
    (l : list A) (l' : list C) :
  mapM f (map g l) = Ok l' -> Forall2 (fun a c => f (g a) = Ok c) l l'.
Proof.
  revert l'. induction l as [|a l IH]; simpl; intros l' H.
  - injection H as <-. constructor.
  - destruct (f (g a)) as [b|e] eqn:Ea; simpl in H; [|discriminate].
    destruct (mapM f (map g l)) as [bs|e]; simpl in H; [|discriminate].
    injection H as <-. constructor; [exact Ea | apply IH; reflexivity].
Qed.

(** ** The datetime stage *)

Lemma to_datetime_cell_cases {A : Type} (parse : string -> Pandas.parsed A)
    (x : option string) :
  (refused parse x /\ Pandas.to_datetime_cell parse x = Raise ValueError)
  \/ (~ refused parse x
      /\ Pandas.to_datetime_cell parse x = Ok (datetime_value parse x)).
Proof.
  destruct x as [s|]; simpl.
  - destruct (parse s) eqn:E.
    + left. split; [exists s; split; [reflexivity | exact E] | reflexivity].
    + right. split; [|reflexivity]. intros (s' & Hs & Hp).
      injection Hs as <-. congruence.
    + right. split; [|reflexivity]. intros (s' & Hs & Hp).
      injection Hs as <-. congruence.
  - right. split; [|reflexivity]. intros (s' & Hs & _). discriminate.
Qed.

Lemma to_datetime_refused {A B : Type} (parse : string -> Pandas.parsed A)
    (token : B -> option string) (df : list B) (r : B) :
  In r df -> refused parse (token r) ->
  Pandas.to_datetime parse (map token df) = Raise ValueError.
Proof.
  intros Hin Hr. unfold Pandas.to_datetime.
  apply (mapM_raise _ _ (token r)); [apply in_map, Hin|].
  destruct (to_datetime_cell_cases parse (token r)) as [[_ E]|[N _]];
    [exact E | contradiction].
Qed.

Lemma to_datetime_accepted {A B : Type} (parse : string -> Pandas.parsed A)
    (token : B -> option string) (df : list B) :
  (forall r, In r df -> ~ refused parse (token r)) ->
  Pandas.to_datetime parse (map token df)
  = Ok (map (fun r => datetime_value parse (token r)) df).
Proof.
  intro H. unfold Pandas.to_datetime. rewrite <- (map_map token (datetime_value parse)).
  apply mapM_map. intros x Hx. apply in_map_iff in Hx. destruct Hx as (r & <- & Hr).
  destruct (to_datetime_cell_cases parse (token r)) as [[R _]|[_ E]];
    [destruct (H r Hr R) | exact E].
Qed.

Lemma to_datetime_decide {A B : Type} (parse : string -> Pandas.parsed A)
    (token : B -> option string) (df : list B) :
  (exists r, In r df /\ refused parse (token r))
  \/ (forall r, In r df -> ~ refused parse (token r)).
Proof.
  induction df as [|a df IH]; [right; intros r []|].
  destruct (to_datetime_cell_cases parse (token a)) as [[R _]|[N _]].
  - left. exists a. split; [left; reflexivity | exact R].
  - destruct IH as [(r & Hr & R)|IH].
    + left. exists r. split; [right; exact Hr | exact R].
    + right. intros r [<-|Hr]; [exact N | apply IH, Hr].
Qed.

Lemma with_datetimes_map (df : Loaded.frame)
    (f1 f2 : Loaded.row -> option date) (g1 g2 : Loaded.row -> option time) :
  with_datetimes df (map f1 df) (map f2 df) (map g1 df) (map g2 df)
  = map (fun r =>
           {| Dated.cat := r.(Loaded.cat); Dated.num := r.(Loaded.num);
              Dated.ChargingStationId := r.(Loaded.ChargingStationId);
              Dated.ChargingCostUSD := r.(Loaded.ChargingCostUSD);
              Dated.StateOfChargeStart_pct := r.(Loaded.StateOfChargeStart_pct);
              Dated.StateOfChargeEnd_pct := r.(Loaded.StateOfChargeEnd_pct);
              Dated.ChargingStartDate := f1 r; Dated.ChargingStartTime := g1 r;
              Dated.ChargingEndDate := f2 r; Dated.ChargingEndTime := g2 r |}) df.
Proof.
  induction df as [|r df IH]; simpl; [reflexivity|]. rewrite IH. reflexivity.
Qed.

Lemma end_time_tokens (df : Loaded.frame) :
  map Pandas.str_replace_fraction
    (map (fun r => Pandas.str_split_get 1 r.(Loaded.ChargingEndTime)) df)
  = map end_time_token df.
Proof. rewrite map_map. reflexivity. Qed.

(** The stage raises as soon as one row holds a token a parser refuses. *)
Lemma process_datetime_refused (lib : datetime_parsers) (df : Loaded.frame)
    (r : Loaded.row) :
  In r df -> row_refused lib r ->
  process_datetime_columns lib df = Raise ValueError.
Proof.
  intros Hin Hr. unfold process_datetime_columns. rewrite end_time_tokens.
  change (fun r0 => Pandas.str_split_get 0 (Loaded.ChargingStartTime r0))
    with start_date_token.
  change (fun r0 => Pandas.str_split_get 1 (Loaded.ChargingStartTime r0))
    with start_time_token.
  change (fun r0 => Pandas.str_split_get 0 (Loaded.ChargingEndTime r0))
    with end_date_token.
  destruct Hr as [R|[R|[R|R]]].
  - rewrite (to_datetime_refused _ _ _ _ Hin R). reflexivity.
  - destruct (Pandas.to_datetime (parse_date lib) (map start_date_token df)) as [?|e];
      simpl; [|rewrite (exn_unique e); reflexivity].
    rewrite (to_datetime_refused _ _ _ _ Hin R). reflexivity.
  - destruct (Pandas.to_datetime (parse_date lib) (map start_date_token df)) as [?|e];
      simpl; [|rewrite (exn_unique e); reflexivity].
    destruct (Pandas.to_datetime (parse_date lib) (map end_date_token df)) as [?|e];
      simpl; [|rewrite (exn_unique e); reflexivity].
    rewrite (to_datetime_refused _ _ _ _ Hin R). reflexivity.
  - destruct (Pandas.to_datetime (parse_date lib) (map start_date_token df)) as [?|e];
      simpl; [|rewrite (exn_unique e); reflexivity].
    destruct (Pandas.to_datetime (parse_date lib) (map end_date_token df)) as [?|e];
      simpl; [|rewrite (exn_unique e); reflexivity].
    destruct (Pandas.to_datetime (parse_time lib) (map start_time_token df)) as [?|e];
      simpl; [|rewrite (exn_unique e); reflexivity].
    rewrite (to_datetime_refused _ _ _ _ Hin R). reflexivity.
Qed.

(** With no refused token the stage returns every row, each with the
    values the parsers gave. *)
Lemma process_datetime_accepted (lib : datetime_parsers) (df : Loaded.frame) :
  (forall r, In r df -> ~ row_refused lib r) ->
  process_datetime_columns lib df = Ok (map (dated_row lib) df).
Proof.
  intro H. unfold process_datetime_columns. rewrite end_time_tokens.
  change (fun r0 => Pandas.str_split_get 0 (Loaded.ChargingStartTime r0))
    with start_date_token.
  change (fun r0 => Pandas.str_split_get 1 (Loaded.ChargingStartTime r0))
    with start_time_token.
  change (fun r0 => Pandas.str_split_get 0 (Loaded.ChargingEndTime r0))
    with end_date_token.
  rewrite !to_datetime_accepted.
  - simpl. rewrite with_datetimes_map. reflexivity.
  - intros r Hr R. apply (H r Hr). right; right; right. exact R.
  - intros r Hr R. apply (H r Hr). right; right; left. exact R.
  - intros r Hr R. apply (H r Hr). right; left. exact R.
  - intros r Hr R. apply (H r Hr). left. exact R.
Qed.

Lemma row_refused_decide (lib : datetime_parsers) (df : Loaded.frame) :
  (exists r, In r df /\ row_refused lib r)
  \/ (forall r, In r df -> ~ row_refused lib r).
Proof.
  destruct (to_datetime_decide lib.(parse_date) start_date_token df) as [(r & Hr & R)|N1];
    [left; exists r; split; [exact Hr | left; exact R]|].
  destruct (to_datetime_decide lib.(parse_date) end_date_token df) as [(r & Hr & R)|N2];
    [left; exists r; split; [exact Hr | right; left; exact R]|].
  destruct (to_datetime_decide lib.(parse_time) start_time_token df) as [(r & Hr & R)|N3];
    [left; exists r; split; [exact Hr | right; right; left; exact R]|].
  destruct (to_datetime_decide lib.(parse_time) end_time_token df) as [(r & Hr & R)|N4];
    [left; exists r; split; [exact Hr | right; right; right; exact R]|].
  right. intros r Hr [R|[R|[R|R]]];
    [apply (N1 r Hr R) | apply (N2 r Hr R) | apply (N3 r Hr R) | apply (N4 r Hr R)].
Qed.

Lemma process_datetime_ok (lib : datetime_parsers) (df : Loaded.frame)
    (df' : Dated.frame) :
  process_datetime_columns lib df = Ok df' ->
  df' = map (dated_row lib) df /\ forall r, In r df -> ~ row_refused lib r.
Proof.
  intro H. destruct (row_refused_decide lib df) as [(r & Hr & R)|N].
  - rewrite (process_datetime_refused lib df r Hr R) in H. discriminate.
  - rewrite (process_datetime_accepted lib df N) in H. injection H as <-.
    split; [reflexivity | exact N].
Qed.

(** ** The symbol and feature stage *)

Lemma astype_float_inv {B : Type} (g : B -> string) (df : list B) (l : list float) :
  Pandas.astype_float (map g df) = Ok l ->
  Forall2 (fun r f => PyFloat.float_of_str (g r) = Some f) df l.
Proof.
  intro H. apply mapM_map_inv in H.
  induction H as [|r f df l E _ IH]; constructor; [|exact IH].
  destruct (PyFloat.float_of_str (g r)); [injection E as <-; reflexivity | discriminate].
Qed.

Lemma with_features_featured (df : Dated.frame) (ss es cs : list float) :
  Forall2 (fun r f =>
    PyFloat.float_of_str (remove_char "%" (str r.(Dated.StateOfChargeStart_pct)))
    = Some f) df ss ->
  Forall2 (fun r f =>
    PyFloat.float_of_str (remove_char "%" (str r.(Dated.StateOfChargeEnd_pct)))
    = Some f) df es ->
  Forall2 (fun r f =>
    PyFloat.float_of_str (remove_char "$" (str r.(Dated.ChargingCostUSD)))
    = Some f) df cs ->
  Forall2 featured df
    (with_features df ss es cs
       (map (fun r => remove_char "S" (str r.(Dated.ChargingStationId))) df)
       (series_sub es ss)
       (map (fun r => (r.(Dated.num).(ChargingDurationHours) * 60)%float) df)).
Proof.
  intro H1. revert es cs.
  induction H1 as [|r s df ss Hs _ IH]; intros es cs H2 H3.
  - inversion H2; subst. constructor.
  - inversion H2 as [|? e ? es' He H2']; subst.
    inversion H3 as [|? c ? cs' Hc H3']; subst.
    simpl. constructor; [|apply IH; assumption].
    unfold featured. simpl. repeat split; assumption.
Qed.

Lemma clean_symbols_ok (df : Dated.frame) (df' : Final.frame) :
  clean_symbols_and_features df = Ok df' -> Forall2 featured df df'.
Proof.
  unfold clean_symbols_and_features. intro H.
  destruct (Pandas.astype_float
              (map (fun r => remove_char "%" (str r.(Dated.StateOfChargeStart_pct))) df))
    as [ss|] eqn:E1; simpl in H; [|discriminate].
  destruct (Pandas.astype_float
              (map (fun r => remove_char "%" (str r.(Dated.StateOfChargeEnd_pct))) df))
    as [es|] eqn:E2; simpl in H; [|discriminate].
  destruct (Pandas.astype_float
              (map (fun r => remove_char "$" (str r.(Dated.ChargingCostUSD))) df))
    as [cs|] eqn:E3; simpl in H; [|discriminate].
  injection H as <-.
  apply with_features_featured; apply astype_float_inv; assumption.
Qed.

Lemma main_ok (lib : datetime_parsers) (df : Loaded.frame) (df' : Final.frame) :
  main lib df = Ok df' ->
  Forall2 featured
    (map (dated_row lib) (handle_missing_and_dropna (clean_categoricals_auto df)))
    df'.
Proof.
  unfold main. intro H.
  destruct (process_datetime_columns lib
              (handle_missing_and_dropna (clean_categoricals_auto df)))
    as [d|] eqn:E; simpl in H; [|discriminate].
  apply process_datetime_ok in E. destruct E as [-> _].
  apply clean_symbols_ok, H.
Qed.

Lemma Forall2_In_r {A B : Type} (R : A -> B -> Prop) (l : list A) (l' : list B)
    (b : B) :
  Forall2 R l l' -> In b l' -> exists a, In a l /\ R a b.
Proof.
  induction 1 as [|x y l l' Hxy _ IH]; simpl; [contradiction|].
  intros [<-|Hb].
  - exists x. split; [left; reflexivity | exact Hxy].
  - destruct (IH Hb) as (a & Ha & Hr). exists a. split; [right; exact Ha | exact Hr].
Qed.

(** ** The claims on the pipeline *)

(** C5, amended.  When a row holds a date token or a time token that the
    parser refuses, the datetime stage raises and the whole run aborts with
    it: no row is recovered.  A combined date-time text without the
    expected token is not such a case: with no token refused the stage
    returns every row, and a date or a time is missing there when its token
    is absent or when the parser answers [NaT]. *)
Theorem datetime_refusal_is_fatal (lib : datetime_parsers) (df : Loaded.frame) :
  (forall r, In r df -> row_refused lib r ->
     process_datetime_columns lib df = Raise ValueError)
  /\ (forall r,
        In r (handle_missing_and_dropna (clean_categoricals_auto df)) ->
        row_refused lib r -> main lib df = Raise ValueError)
  /\ ((forall r, In r df -> ~ row_refused lib r) ->
      process_datetime_columns lib df = Ok (map (dated_row lib) df)).
Proof.
  split; [|split].
  - intros r Hin Hr. exact (process_datetime_refused lib df r Hin Hr).
  - intros r Hin Hr. unfold main.
    rewrite (process_datetime_refused lib _ r Hin Hr). reflexivity.
  - apply process_datetime_accepted.
Qed.

Lemma datetime_refusal_is_fatal_witness :
  process_datetime_columns Sample.parsers
    [Sample.full_row; Sample.session Sample.cats (PyStr "2024-13-45 12:00:00")]
  = Raise ValueError.
Proof.
  apply (proj1 (datetime_refusal_is_fatal Sample.parsers
                  [Sample.full_row;
                   Sample.session Sample.cats (PyStr "2024-13-45 12:00:00")])
           (Sample.session Sample.cats (PyStr "2024-13-45 12:00:00"))).
  - right. left. reflexivity.
  - left. exists "2024-13-45". split; reflexivity.
Defined.

(** C5 as worded fails on a start stamp without a time part: nothing is
    raised, the run completes, and the row is left with a missing start
    time. *)
Lemma date_only_is_not_fatal :
  exists r',
    process_datetime_columns Sample.parsers [Sample.date_only_row] = Ok [r']
    /\ r'.(Dated.ChargingStartDate) = Some {| year := 2024; month := 1; day := 1 |}
    /\ r'.(Dated.ChargingStartTime) = None.
Proof. eexists. repeat split. Qed.

(** C1, amended.  After the missing-row drop no row holds a missing value
    in any column: the drop keeps exactly the rows of the cleaned table
    without one.  In the table the whole pipeline returns, the six
    categorical columns and the seven measurement columns, which no later
    stage writes, hold no missing value. *)
Theorem no_missing_after_drop (df : Loaded.frame) :
  (forall r,
     In r (handle_missing_and_dropna (clean_categoricals_auto df))
     <-> In r (clean_categoricals_auto df) /\ Loaded.isna_any r = false)
  /\ (forall (lib : datetime_parsers) (df' : Final.frame) (r' : Final.row),
        main lib df = Ok df' -> In r' df' ->
        isna_categoricals r'.(Final.cat) = false
        /\ isna_numerics r'.(Final.num) = false).
Proof.
  split; [intro r; apply dropna_no_missing|].
  intros lib df' r' H Hin.
  destruct (Forall2_In_r _ _ _ _ (main_ok lib df df' H) Hin) as (d & Hd & F).
  apply in_map_iff in Hd. destruct Hd as (r & <- & Hr).
  apply dropna_no_missing in Hr. destruct Hr as [_ Hr].
  destruct F as (_ & _ & _ & _ & _ & _ & -> & -> & _). simpl.
  unfold Loaded.isna_any in Hr. rewrite !orb_false_iff in Hr.
  split; apply Hr.
Qed.

Lemma no_missing_after_drop_witness :
  let df := [Sample.full_row; Sample.date_only_row] in
  let df' := match main Sample.parsers df with Ok t => t | Raise _ => [] end in
  main Sample.parsers df = Ok df'
  /\ forall r', In r' df' ->
       isna_categoricals r'.(Final.cat) = false
       /\ isna_numerics r'.(Final.num) = false.
Proof.
  intros df df'. split; [reflexivity|].
  intros r' Hin.
  apply (proj2 (no_missing_after_drop df) Sample.parsers df' r');
    [reflexivity | exact Hin].
Defined.

(** C1 as worded fails on a start stamp without a time part: the row has
    no missing value when the drop runs, the run completes, and the row
    of the final table holds a missing start time. *)
Lemma missing_after_pipeline :
  exists r',
    main Sample.parsers [Sample.date_only_row] = Ok [r']
    /\ Loaded.isna_any Sample.date_only_row = false
    /\ r'.(Final.ChargingStartTime) = None
    /\ Final.isna_any r' = true.
Proof. eexists. repeat split. Qed.

Lemma remove_char_filter (c : ascii) (s : string) :
  remove_char c s
  = string_of_list_ascii
      (filter (fun d => negb (Ascii.eqb d c)) (list_ascii_of_string s)).
Proof.
  induction s as [|d r IH]; simpl; [reflexivity|].
  destruct (Ascii.eqb d c); simpl; rewrite IH; reflexivity.
Qed.

(** C8.  The stage replaces each state-of-charge text by the float read
    from it without its ['%'] characters, the cost text by the float read
    from it without its ['$'] characters, and the station id by its text
    without any ['S'], wherever it stands; ["20%"] becomes 20.0,
    ["$10.50"] becomes 10.5 and ["S123"] becomes ["123"]. *)
Theorem symbols_stripped :
  (forall (df : Dated.frame) (df' : Final.frame),
      clean_symbols_and_features df = Ok df' ->
      Forall2 (fun r r' =>
        PyFloat.float_of_str (remove_char "%" (str r.(Dated.StateOfChargeStart_pct)))
        = Some r'.(Final.StateOfChargeStart_pct)
        /\ PyFloat.float_of_str (remove_char "%" (str r.(Dated.StateOfChargeEnd_pct)))
           = Some r'.(Final.StateOfChargeEnd_pct)
        /\ PyFloat.float_of_str (remove_char "$" (str r.(Dated.ChargingCostUSD)))
           = Some r'.(Final.ChargingCostUSD)
        /\ r'.(Final.ChargingStationId)
           = remove_char "S" (str r.(Dated.ChargingStationId))) df df')
  /\ (forall (c : ascii) (s : string),
        remove_char c s
        = string_of_list_ascii
            (filter (fun d => negb (Ascii.eqb d c)) (list_ascii_of_string s)))
  /\ PyFloat.float_of_str (remove_char "%" "20%") = Some 20%float
  /\ PyFloat.float_of_str (remove_char "$" "$10.50") = Some 10.5%float
  /\ remove_char "S" "S123" = "123".
Proof.
  split; [|split; [exact remove_char_filter | repeat split; reflexivity]].
  intros df df' H. apply clean_symbols_ok in H.
  revert H. apply Forall2_impl. intros r r' F.
  destruct F as (F1 & F2 & F3 & F4 & _). repeat split; assumption.
Qed.

Lemma symbols_stripped_witness :
  let df := [dated_row Sample.parsers Sample.full_row] in
  let df' := match clean_symbols_and_features df with Ok t => t | Raise _ => [] end in
  map Final.StateOfChargeStart_pct df' = [20%float]
  /\ map Final.ChargingCostUSD df' = [10.5%float]
  /\ map Final.ChargingStationId df' = ["123"]
  /\ Forall2 (fun r r' =>
       PyFloat.float_of_str (remove_char "%" (str r.(Dated.StateOfChargeStart_pct)))
       = Some r'.(Final.StateOfChargeStart_pct)
       /\ PyFloat.float_of_str (remove_char "%" (str r.(Dated.StateOfChargeEnd_pct)))
          = Some r'.(Final.StateOfChargeEnd_pct)
       /\ PyFloat.float_of_str (remove_char "$" (str r.(Dated.ChargingCostUSD)))
          = Some r'.(Final.ChargingCostUSD)
       /\ r'.(Final.ChargingStationId)
          = remove_char "S" (str r.(Dated.ChargingStationId))) df df'.
Proof.
  intros df df'. split; [reflexivity|]. split; [reflexivity|]. split; [reflexivity|].
  apply (proj1 symbols_stripped df df'). reflexivity.
Defined.

(** C9.  In every row of the table the stage returns, and so of the table
    the pipeline returns, [ChargeDifference%] is the float
    [StateOfChargeEnd% - StateOfChargeStart%] and [ChargingDurationMinutes]
    is the float [ChargingDurationHours * 60]; start 20.0 and end 80.0 give
    60.0, and 1.5 hours give 90.0 minutes. *)
Theorem features_derived :
  (forall (df : Dated.frame) (df' : Final.frame) (r' : Final.row),
      clean_symbols_and_features df = Ok df' -> In r' df' ->
      (r'.(Final.ChargeDifference_pct)
       = (r'.(Final.StateOfChargeEnd_pct) - r'.(Final.StateOfChargeStart_pct))%float
       /\ r'.(Final.ChargingDurationMinutes)
          = (r'.(Final.num).(ChargingDurationHours) * 60)%float)
      /\ (r'.(Final.StateOfChargeStart_pct) = 20%float ->
          r'.(Final.StateOfChargeEnd_pct) = 80%float ->
          r'.(Final.ChargeDifference_pct) = 60%float)
      /\ (r'.(Final.num).(ChargingDurationHours) = 1.5%float ->
          r'.(Final.ChargingDurationMinutes) = 90%float))
  /\ (forall (lib : datetime_parsers) (df : Loaded.frame) (df' : Final.frame)
             (r' : Final.row),
        main lib df = Ok df' -> In r' df' ->
        r'.(Final.ChargeDifference_pct)
        = (r'.(Final.StateOfChargeEnd_pct) - r'.(Final.StateOfChargeStart_pct))%float
        /\ r'.(Final.ChargingDurationMinutes)
           = (r'.(Final.num).(ChargingDurationHours) * 60)%float).
Proof.
  assert (row : forall r r', featured r r' ->
            r'.(Final.ChargeDifference_pct)
            = (r'.(Final.StateOfChargeEnd_pct) - r'.(Final.StateOfChargeStart_pct))%float
            /\ r'.(Final.ChargingDurationMinutes)
               = (r'.(Final.num).(ChargingDurationHours) * 60)%float).
  { intros r r' F. destruct F as (_ & _ & _ & _ & F5 & F6 & _ & F8 & _).
    rewrite F8. split; assumption. }
  split.
  - intros df df' r' H Hin.
    destruct (Forall2_In_r _ _ _ _ (clean_symbols_ok df df' H) Hin) as (r & _ & F).
    destruct (row r r' F) as [D M]. split; [split; assumption|]. split.
    + intros Hs He. rewrite D, Hs, He. reflexivity.
    + intro Hh. rewrite M, Hh. reflexivity.
  - intros lib df df' r' H Hin.
    destruct (Forall2_In_r _ _ _ _ (main_ok lib df df' H) Hin) as (r & _ & F).
    exact (row r r' F).
Qed.

Lemma features_derived_witness :
  let df' := match main Sample.parsers [Sample.full_row] with
             | Ok t => t
             | Raise _ => []
             end in
  map Final.ChargeDifference_pct df' = [60%float]
  /\ map Final.ChargingDurationMinutes df' = [90%float]
  /\ forall r', In r' df' ->
       r'.(Final.ChargeDifference_pct)
       = (r'.(Final.StateOfChargeEnd_pct) - r'.(Final.StateOfChargeStart_pct))%float
       /\ r'.(Final.ChargingDurationMinutes)
          = (r'.(Final.num).(ChargingDurationHours) * 60)%float.
Proof.
  intro df'. split; [reflexivity|]. split; [reflexivity|].
  intros r' Hin.
  apply (proj2 features_derived Sample.parsers [Sample.full_row] df' r');
    [reflexivity | exact Hin].
Defined.

(** ** Outliers *)

Lemma ltb_irrefl (x : float) : (x <? x)%float = false.
Proof.
  rewrite ltb_spec. unfold SpecFloat.SFltb, SpecFloat.SFcompare.
  destruct (Prim2SF x) as [s|s| |s m e]; try reflexivity.
  - destruct s; reflexivity.
  - destruct s; rewrite Z.compare_refl; fold (Pos.compare m m);
      rewrite Pos.compare_refl; reflexivity.
Qed.

(** C4.  With Q1 and Q3 the quantiles of a column at 0.25 and 0.75 and
    IQR = Q3 - Q1, the values counted for the column are those strictly
    below Q1 - 1.5 * IQR or strictly above Q3 + 1.5 * IQR, and the count
    printed for a numeric column is their number.  A value equal to the
    upper bound is counted only if it is below the lower bound; with
    Q1 = 10 and Q3 = 20 the bounds are -5 and 35, the value 35 is not
    counted and 35.01 is. *)
Theorem iqr_outliers :
  (forall (quantile : list float -> float -> float) (column : list float)
          (v : float),
      let Q1 := quantile column 0.25%float in
      let Q3 := quantile column 0.75%float in
      let IQR := (Q3 - Q1)%float in
      In v (outliers_of_column quantile column)
      <-> In v column
          /\ ((v <? Q1 - 1.5 * IQR)%float = true
              \/ (Q3 + 1.5 * IQR <? v)%float = true))
  /\ (forall (quantile : list float -> float -> float) (df : Final.frame)
             (name : string) (column : list float),
        In (name, column) (Final.numeric_columns df) ->
        In (name, length (outliers_of_column quantile column))
           (check_outliers_iqr quantile df))
  /\ (forall lower_bound upper_bound : float,
        is_outlier lower_bound upper_bound upper_bound
        = (upper_bound <? lower_bound)%float)
  /\ (forall (quantile : list float -> float -> float) (column : list float),
        quantile column 0.25%float = 10%float ->
        quantile column 0.75%float = 20%float ->
        ~ In 35%float (outliers_of_column quantile column)
        /\ (In f35_01 column -> In f35_01 (outliers_of_column quantile column)))
  /\ iqr_bounds 10 20 = ((-5)%float, 35%float)
  /\ PyFloat.float_of_str "35.01" = Some f35_01.
Proof.
  split; [|split; [|split; [|split; [|split; reflexivity]]]].
  - intros quantile column v Q1 Q3 IQR. unfold outliers_of_column, iqr_bounds.
    rewrite filter_In. unfold is_outlier. rewrite orb_true_iff. reflexivity.
  - intros quantile df name column H. unfold check_outliers_iqr.
    apply (in_map (fun nc => (fst nc, length (outliers_of_column quantile (snd nc))))
             _ _ H).
  - intros lb ub. unfold is_outlier. rewrite ltb_irrefl. apply orb_false_r.
  - intros quantile column H1 H3. unfold outliers_of_column.
    rewrite H1, H3. change (iqr_bounds 10 20) with ((-5)%float, 35%float).
    rewrite !filter_In. split.
    + intros [_ H]. vm_compute in H. discriminate.
    + intro H. split; [exact H | reflexivity].
Qed.

Lemma iqr_outliers_witness :
  let quantile := fun (_ : list float) (q : float) =>
                    if (q <? 0.5)%float then 10%float else 20%float in
  let column := [35%float; f35_01; 12%float; (-5)%float; (-6)%float] in
  outliers_of_column quantile column = [f35_01; (-6)%float]
  /\ ~ In 35%float (outliers_of_column quantile column)
  /\ In f35_01 (outliers_of_column quantile column).
Proof.
  intros quantile column. split; [reflexivity|].
  destruct (proj1 (proj2 (proj2 (proj2 iqr_outliers))) quantile column) as [H1 H2];
    [reflexivity | reflexivity |].
  split; [exact H1 | apply H2; right; left; reflexivity].
Defined.

(** * Further properties of the code *)

(** ** Letter case and surrounding whitespace *)

Lemma lstrip_lower (s : string) : lstrip (lower s) = lower (lstrip s).
Proof.
  induction s as [|c r IH]; simpl; [reflexivity|].
  rewrite is_space_lower_char. destruct (is_space c); [exact IH | reflexivity].
Qed.

Lemma rstrip_lower (s : string) :
  drop_trailing is_space (lower s) = lower (drop_trailing is_space s).
Proof.
  induction s as [|c r IH]; simpl; [reflexivity|].
  rewrite IH, is_space_lower_char.
  destruct (drop_trailing is_space r); simpl; [destruct (is_space c)|]; reflexivity.
Qed.

Lemma strip_lower (s : string) : strip (lower s) = lower (strip s).
Proof. unfold strip, rstrip. rewrite lstrip_lower. apply rstrip_lower. Qed.

Lemma drop_trailing_every (p : ascii -> bool) (w : string) :
  every p w = true -> drop_trailing p w = EmptyString.
Proof.
  induction w as [|c r IH]; simpl; [reflexivity|].
  intro H. apply andb_prop in H. destruct H as [Hc Hr].
  rewrite (IH Hr), Hc. reflexivity.
Qed.

Lemma drop_trailing_app (p : ascii -> bool) (s w : string) :
  every p w = true -> drop_trailing p (s ++ w) = drop_trailing p s.
Proof.
  intro H. induction s as [|c r IH]; simpl.
  - apply drop_trailing_every, H.
  - rewrite IH. reflexivity.
Qed.

Lemma lstrip_every (w s : string) :
  every is_space w = true -> lstrip (w ++ s) = lstrip s.
Proof.
  induction w as [|c r IH]; simpl; [reflexivity|].
  intro H. apply andb_prop in H. destruct H as [Hc Hr]. rewrite Hc. apply IH, Hr.
Qed.

Lemma lstrip_all_space (w : string) :
  every is_space w = true -> lstrip w = EmptyString.
Proof.
  induction w as [|c r IH]; simpl; [reflexivity|].
  intro H. apply andb_prop in H. destruct H as [Hc Hr]. rewrite Hc. apply IH, Hr.
Qed.

Lemma lstrip_app (s w : string) :
  every is_space w = true ->
  lstrip (s ++ w) = lstrip s ++ w
  \/ (lstrip (s ++ w) = EmptyString /\ lstrip s = EmptyString).
Proof.
  intro H. induction s as [|c r IH]; simpl.
  - right. split; [apply lstrip_all_space, H | reflexivity].
  - destruct (is_space c); [exact IH | left; reflexivity].
Qed.

Lemma strip_padded (w1 s w2 : string) :
  every is_space w1 = true -> every is_space w2 = true ->
  strip (w1 ++ s ++ w2) = strip s.
Proof.
  intros H1 H2. unfold strip, rstrip. rewrite (lstrip_every w1 _ H1).
  destruct (lstrip_app s w2 H2) as [E|[E1 E2]].
  - rewrite E. apply drop_trailing_app, H2.
  - rewrite E1, E2. reflexivity.
Qed.

Lemma normalize_text_of_key (s1 s2 : string) :
  lower (strip s1) = lower (strip s2) ->
  _normalize_text (PyStr s1) = _normalize_text (PyStr s2).
Proof. intro H. unfold _normalize_text. simpl. rewrite H. reflexivity. Qed.

(** X1.  Two texts that differ only in letter case, or only in whitespace
    around them, are normalized to the same value, and so are cleaned to
    the same value in every column. *)
Theorem normalize_ignores_case_and_padding :
  (forall s1 s2 : string,
      lower s1 = lower s2 ->
      _normalize_text (PyStr s1) = _normalize_text (PyStr s2))
  /\ (forall w1 s w2 : string,
        every is_space w1 = true -> every is_space w2 = true ->
        _normalize_text (PyStr (w1 ++ s ++ w2)) = _normalize_text (PyStr s))
  /\ (forall (aliases canon : dict) (w1 s1 s2 w2 : string),
        lower s1 = lower s2 ->
        every is_space w1 = true -> every is_space w2 = true ->
        clean_series aliases canon [PyStr (w1 ++ s1 ++ w2)]
        = clean_series aliases canon [PyStr s2]).
Proof.
  assert (A : forall s1 s2, lower s1 = lower s2 ->
                _normalize_text (PyStr s1) = _normalize_text (PyStr s2)).
  { intros s1 s2 H. apply normalize_text_of_key.
    rewrite <- !strip_lower, H. reflexivity. }
  assert (B : forall w1 s w2, every is_space w1 = true -> every is_space w2 = true ->
                _normalize_text (PyStr (w1 ++ s ++ w2)) = _normalize_text (PyStr s)).
  { intros w1 s w2 H1 H2. apply normalize_text_of_key.
    rewrite (strip_padded w1 s w2 H1 H2). reflexivity. }
  split; [exact A|]. split; [exact B|].
  intros aliases canon w1 s1 s2 w2 H H1 H2.
  rewrite !clean_series_map. cbn [map]. unfold clean_value. cbn [isna].
  rewrite (B w1 s1 w2 H1 H2), (A s1 s2 H). reflexivity.
Qed.

Lemma normalize_ignores_case_and_padding_witness :
  clean_series LOCATION_ALIASES LOCATION_CANON [PyStr ("  " ++ "SEATTLE" ++ " ")]
  = clean_series LOCATION_ALIASES LOCATION_CANON [PyStr "seattle"].
Proof.
  apply (proj2 (proj2 normalize_ignores_case_and_padding)); reflexivity.
Defined.

(** ** The cleaned values *)

(** X2.  Every cell of a cleaned column is a missing marker, a label of the
    column's canonical dictionary, or a text in normalized form that is a
    key of neither dictionary of the column and is not ["unknown"]: no
    [None], no alias key and no canonical key is left. *)
Theorem cleaned_cell_kinds (col : Col.t) (s : Pandas.Series) (y : pyobj) :
  In y (clean_series (aliases_of col) (canon_of col) s) ->
  y = PyNaN
  \/ (exists k label, dict_get (canon_of col) k = Some label /\ y = PyStr label)
  \/ (exists t,
        y = PyStr t
        /\ dict_get (aliases_of col) t = None /\ dict_get (canon_of col) t = None
        /\ t <> "unknown"
        /\ trimmed t = true /\ lowered t = true /\ single_spaced false t = true).
Proof.
  rewrite clean_series_map. intro H. apply in_map_iff in H.
  destruct H as (x & <- & _).
  destruct (clean_value_cases (aliases_of col) (canon_of col)
              (rules_targets_keyed col) (rules_labels_kept col) x)
    as [E|[(k & label & Ek & E)|(t & E & En & Ea & Ec & U1 & U2)]].
  - left. exact E.
  - right. left. exists k, label. split; assumption.
  - right. right. exists t. split; [exact E|]. split; [exact Ea|]. split; [exact Ec|].
    split; [intros ->; discriminate|]. exact (normalize_text_shape _ _ En).
Qed.

Lemma cleaned_cell_kinds_witness :
  PyStr "springfield" = PyNaN
  \/ (exists k label,
        dict_get (canon_of Col.ChargingStationLocation) k = Some label
        /\ PyStr "springfield" = PyStr label)
  \/ (exists t,
        PyStr "springfield" = PyStr t
        /\ dict_get (aliases_of Col.ChargingStationLocation) t = None
        /\ dict_get (canon_of Col.ChargingStationLocation) t = None
        /\ t <> "unknown"
        /\ trimmed t = true /\ lowered t = true /\ single_spaced false t = true).
Proof.
  apply (cleaned_cell_kinds Col.ChargingStationLocation
           [PyStr "Seattle#"; PyStr " Springfield "]).
  right. left. reflexivity.
Defined.

(** X3.  Alias correction and canonical mapping are each idempotent on any
    column, for the dictionaries of each of the six columns: no alias
    target is an alias key and no label is a canonical key. *)
Theorem alias_and_canonical_steps_idempotent (col : Col.t) (s : Pandas.Series) :
  _apply_aliases (_apply_aliases s (aliases_of col)) (aliases_of col)
  = _apply_aliases s (aliases_of col)
  /\ _to_canonical (_to_canonical s (canon_of col)) (canon_of col)
     = _to_canonical s (canon_of col).
Proof.
  unfold _apply_aliases, _to_canonical, Pandas.replace_dict. rewrite !map_map.
  split; apply map_ext; intros [| |k|t]; try reflexivity; simpl.
  - destruct (dict_get (aliases_of col) k) as [v|] eqn:E; simpl; [|rewrite E; reflexivity].
    apply dict_get_In in E.
    destruct col; simpl in E;
      repeat (destruct E as [E|E]; [injection E as <- <-; reflexivity|]);
      contradiction.
  - destruct (dict_get (canon_of col) k) as [v|] eqn:E; simpl; [|rewrite E; reflexivity].
    apply dict_get_In in E.
    destruct col; simpl in E;
      repeat (destruct E as [E|E]; [injection E as <- <-; reflexivity|]);
      contradiction.
Qed.

(** ** The cleaning stage on the table *)

Lemma set_cell_commute (c1 c2 : Col.t) (f1 f2 : pyobj -> pyobj) (r : Loaded.row) :
  c1 <> c2 ->
  Loaded.set_cell c1
    (f1 (get_cat c1 (Loaded.cat (Loaded.set_cell c2 (f2 (get_cat c2 r.(Loaded.cat))) r))))
    (Loaded.set_cell c2 (f2 (get_cat c2 r.(Loaded.cat))) r)
  = Loaded.set_cell c2
      (f2 (get_cat c2 (Loaded.cat (Loaded.set_cell c1 (f1 (get_cat c1 r.(Loaded.cat))) r))))
      (Loaded.set_cell c1 (f1 (get_cat c1 r.(Loaded.cat))) r).
Proof.
  intro H. destruct r as [[] ? ? ? ? ? ? ?].
  destruct c1, c2; try congruence; reflexivity.
Qed.

(** X4.  The cleaning stage works row by row: it keeps the number and the
    order of the rows, leaves every other column of a row as it is, and
    makes of each categorical cell what the cleaning of a column makes of
    that cell alone.  The cleanings of two different columns commute. *)
Theorem cleaning_is_rowwise (df : Loaded.frame) :
  Forall2 (fun r r' =>
    (forall col,
        [get_cat col r'.(Loaded.cat)]
        = clean_series (aliases_of col) (canon_of col) [get_cat col r.(Loaded.cat)])
    /\ r'.(Loaded.num) = r.(Loaded.num)
    /\ r'.(Loaded.ChargingStationId) = r.(Loaded.ChargingStationId)
    /\ r'.(Loaded.ChargingStartTime) = r.(Loaded.ChargingStartTime)
    /\ r'.(Loaded.ChargingEndTime) = r.(Loaded.ChargingEndTime)
    /\ r'.(Loaded.ChargingCostUSD) = r.(Loaded.ChargingCostUSD)
    /\ r'.(Loaded.StateOfChargeStart_pct) = r.(Loaded.StateOfChargeStart_pct)
    /\ r'.(Loaded.StateOfChargeEnd_pct) = r.(Loaded.StateOfChargeEnd_pct))
    df (clean_categoricals_auto df)
  /\ (forall (c1 c2 : Col.t) (a1 k1 a2 k2 : dict),
        c1 <> c2 ->
        _clean_categorical_column c1 a1 k1 (_clean_categorical_column c2 a2 k2 df)
        = _clean_categorical_column c2 a2 k2 (_clean_categorical_column c1 a1 k1 df)).
Proof.
  split.
  - rewrite clean_categoricals_auto_map.
    induction df as [|r df IH]; simpl; constructor; [|exact IH].
    split; [|repeat split].
    intro col. rewrite clean_series_map. simpl. rewrite get_cat_clean. reflexivity.
  - intros c1 c2 a1 k1 a2 k2 H.
    rewrite !clean_categorical_column_map, !map_map. apply map_ext. intro r.
    apply (set_cell_commute c1 c2 (clean_value a1 k1) (clean_value a2 k2) r H).
Qed.

(** ** The pieces of a date-time text *)

Lemma split_on_nonempty (sep : ascii) (s : string) : split_on sep s <> [].
Proof.
  destruct s as [|c r]; simpl; [discriminate|].
  destruct (Ascii.eqb c sep); [discriminate|].
  destruct (split_on sep r); discriminate.
Qed.

Lemma split_on_join (sep : ascii) (s : string) :
  String.concat (String sep EmptyString) (split_on sep s) = s.
Proof.
  induction s as [|c r IH]; [reflexivity|].
  pose proof (split_on_nonempty sep r) as Hne. simpl.
  destruct (Ascii.eqb_spec c sep) as [->|Hc].
  - destruct (split_on sep r) as [|w ws]; [contradiction|].
    change (String.concat (String sep "") ("" :: w :: ws))
      with (String sep (String.concat (String sep "") (w :: ws))).
    rewrite IH. reflexivity.
  - destruct (split_on sep r) as [|w ws]; [contradiction|].
    rewrite <- IH. destruct ws; reflexivity.
Qed.

Lemma split_on_first (sep : ascii) (s : string) :
  nth_error (split_on sep s) 0 = Some (before sep s).
Proof.
  induction s as [|c r IH]; simpl; [reflexivity|].
  destruct (Ascii.eqb c sep); [reflexivity|].
  destruct (split_on sep r) as [|w ws]; simpl in *; [discriminate|].
  injection IH as ->. reflexivity.
Qed.

Lemma split_on_second (sep : ascii) (s : string) :
  nth_error (split_on sep s) 1 = None <-> contains sep s = false.
Proof.
  induction s as [|c r IH]; simpl; [split; reflexivity|].
  pose proof (split_on_nonempty sep r) as Hne.
  destruct (Ascii.eqb c sep); simpl.
  - destruct (split_on sep r); [contradiction|]. split; discriminate.
  - destruct (split_on sep r) as [|w ws]; [contradiction|]. exact IH.
Qed.

Lemma split_on_pieces (sep : ascii) (s : string) :
  Forall (fun t => contains sep t = false) (split_on sep s).
Proof.
  induction s as [|c r IH]; simpl; [repeat constructor|].
  destruct (Ascii.eqb c sep) eqn:E; [constructor; [reflexivity | exact IH]|].
  destruct (split_on sep r) as [|w ws]; [repeat constructor; simpl; rewrite E; reflexivity|].
  inversion IH; subst. constructor; [simpl; rewrite E; assumption | assumption].
Qed.

(** X5.  Splitting a stamp at its spaces loses nothing: the pieces joined
    by single spaces give the stamp back, and no piece holds a space.  The
    date token is always there and is the text before the first space; the
    time token is missing exactly when the stamp holds no space. *)
Theorem stamp_split (s : string) :
  String.concat " " (split_space s) = s
  /\ Forall (fun t => contains " " t = false) (split_space s)
  /\ Pandas.str_split_get 0 (PyStr s) = Some (before " " s)
  /\ (Pandas.str_split_get 1 (PyStr s) = None <-> contains " " s = false).
Proof.
  split; [apply (split_on_join " ")|]. split; [apply (split_on_pieces " ")|].
  split; [apply (split_on_first " ") | apply (split_on_second " ")].
Qed.

(** ** Fractional seconds *)

Lemma no_newline_line (s : string) :
  contains "010" s = false -> line_to_end s = true /\ final_newline s = EmptyString.
Proof.
  induction s as [|c r IH]; simpl; [split; reflexivity|].
  unfold is_newline. intro H. apply orb_false_iff in H. destruct H as [Hc Hr].
  rewrite Hc. destruct (IH Hr) as [H1 H2]. split; [exact H1|].
  destruct r; [reflexivity | exact H2].
Qed.

Lemma re_sub_fraction_before (s : string) :
  contains "010" s = false -> re_sub_fraction s = before "." s.
Proof.
  induction s as [|c r IH]; simpl; [reflexivity|].
  intro H. apply orb_false_iff in H. destruct H as [_ Hr].
  destruct (no_newline_line r Hr) as [H1 H2]. rewrite H1, H2, andb_true_r.
  destruct (Ascii.eqb c "."); [reflexivity | rewrite (IH Hr); reflexivity].
Qed.

Lemma contains_before (c : ascii) (s : string) : contains c (before c s) = false.
Proof.
  induction s as [|d r IH]; simpl; [reflexivity|].
  destruct (Ascii.eqb d c) eqn:E; simpl; [reflexivity | rewrite E; exact IH].
Qed.

Lemma contains_before_other (c d : ascii) (s : string) :
  contains d s = false -> contains d (before c s) = false.
Proof.
  induction s as [|e r IH]; simpl; [reflexivity|].
  intro H. apply orb_false_iff in H. destruct H as [He Hr].
  destruct (Ascii.eqb e c); simpl; [reflexivity | rewrite He; apply IH, Hr].
Qed.

(** X6.  On a text without a newline the substitution applied to the end
    time keeps exactly the text before the first ['.']: the result holds no
    ['.'], and a second substitution changes nothing.  Only the end time
    passes through it; the start time token reaches the parser as it was
    split. *)
Theorem fraction_removed (s : string) :
  contains "010" s = false ->
  re_sub_fraction s = before "." s
  /\ contains "." (re_sub_fraction s) = false
  /\ re_sub_fraction (re_sub_fraction s) = re_sub_fraction s
  /\ (forall r : Loaded.row,
        r.(Loaded.ChargingEndTime) = PyStr s ->
        end_time_token r = option_map (before ".") (nth_error (split_space s) 1))
  /\ (forall r : Loaded.row,
        r.(Loaded.ChargingStartTime) = PyStr s ->
        start_time_token r = nth_error (split_space s) 1).
Proof.
  intro H. rewrite (re_sub_fraction_before s H).
  split; [reflexivity|]. split; [apply contains_before|]. split.
  - rewrite re_sub_fraction_before by (apply contains_before_other, H).
    induction s as [|d r IH]; simpl; [reflexivity|].
    simpl in H. apply orb_false_iff in H.
    destruct (Ascii.eqb d ".") eqn:E; simpl; [reflexivity|].
    rewrite E, IH; [reflexivity | apply H].
  - split.
    + intros r Hr.
      unfold end_time_token, Pandas.str_split_get, Pandas.str_replace_fraction.
      rewrite Hr.
      destruct (nth_error (split_space s) 1) as [t|] eqn:Et; [|reflexivity].
      cbn [option_map]. f_equal. apply re_sub_fraction_before.
      revert Et. unfold split_space.
      assert (G : Forall (fun t => contains "010" t = false) (split_on " " s)).
      { clear - H. induction s as [|c r IH]; simpl; [repeat constructor|].
        simpl in H. apply orb_false_iff in H. destruct H as [Hc Hr].
        specialize (IH Hr).
        destruct (Ascii.eqb c " "); [constructor; [reflexivity | exact IH]|].
        destruct (split_on " " r) as [|w ws];
          [repeat constructor; simpl; rewrite Hc; reflexivity|].
        inversion IH; subst. constructor; [simpl; rewrite Hc; assumption | assumption]. }
      intro Et. rewrite Forall_forall in G. apply G. exact (nth_error_In _ _ Et).
    + intros r Hr. unfold start_time_token. rewrite Hr. reflexivity.
Qed.

Lemma fraction_removed_witness :
  re_sub_fraction "13:30:00.25" = "13:30:00"
  /\ end_time_token Sample.full_row = Some "13:30:00".
Proof.
  split.
  - rewrite (proj1 (fraction_removed "13:30:00.25" eq_refl)). reflexivity.
  - rewrite (proj1 (proj2 (proj2 (proj2
               (fraction_removed "2024-01-01 13:30:00.0" eq_refl))))
               Sample.full_row eq_refl).
    reflexivity.
Defined.

(** ** Errors of the symbol stage *)

Lemma mapM_total {A B : Type} (f : A -> result B) (l : list A) :
  (forall a, In a l -> exists b, f a = Ok b) -> exists l', mapM f l = Ok l'.
Proof.
  induction l as [|a l IH]; simpl; [exists []; reflexivity|].
  intro H. destruct (H a (or_introl eq_refl)) as [b Eb].
  destruct IH as [l' El]; [intros x Hx; apply H; right; exact Hx|].
  exists (b :: l'). rewrite Eb. simpl. rewrite El. reflexivity.
Qed.

Lemma astype_float_raise {B : Type} (g : B -> string) (df : list B) (r : B) :
  In r df -> PyFloat.float_of_str (g r) = None ->
  Pandas.astype_float (map g df) = Raise ValueError.
Proof.
  intros Hin H. unfold Pandas.astype_float.
  apply (mapM_raise _ _ (g r)); [apply in_map, Hin | rewrite H; reflexivity].
Qed.

Lemma astype_float_total {B : Type} (g : B -> string) (df : list B) :
  (forall r, In r df -> PyFloat.float_of_str (g r) <> None) ->
  exists l, Pandas.astype_float (map g df) = Ok l.
Proof.
  intro H. apply mapM_total. intros t Ht. apply in_map_iff in Ht.
  destruct Ht as (r & <- & Hr). specialize (H r Hr).
  destruct (PyFloat.float_of_str (g r)) as [f|]; [exists f; reflexivity | contradiction].
Qed.

Lemma clean_symbols_unreadable (df : Dated.frame) (r : Dated.row) :
  In r df -> Unread.unreadable r ->
  clean_symbols_and_features df = Raise ValueError.
Proof.
  intros Hin U. unfold clean_symbols_and_features.
  destruct U as [U|[U|U]].
  - rewrite (astype_float_raise _ df r Hin U). reflexivity.
  - destruct (Pandas.astype_float
                (map (fun r0 => remove_char "%" (str r0.(Dated.StateOfChargeStart_pct))) df))
      as [?|e]; simpl; [|rewrite (exn_unique e); reflexivity].
    rewrite (astype_float_raise _ df r Hin U). reflexivity.
  - destruct (Pandas.astype_float
                (map (fun r0 => remove_char "%" (str r0.(Dated.StateOfChargeStart_pct))) df))
      as [?|e]; simpl; [|rewrite (exn_unique e); reflexivity].
    destruct (Pandas.astype_float
                (map (fun r0 => remove_char "%" (str r0.(Dated.StateOfChargeEnd_pct))) df))
      as [?|e]; simpl; [|rewrite (exn_unique e); reflexivity].
    rewrite (astype_float_raise _ df r Hin U). reflexivity.
Qed.

Lemma clean_symbols_readable (df : Dated.frame) :
  (forall r, In r df -> ~ Unread.unreadable r) ->
  exists df', clean_symbols_and_features df = Ok df' /\ length df' = length df.
Proof.
  intro H. unfold clean_symbols_and_features.
  destruct (astype_float_total
              (fun r => remove_char "%" (str r.(Dated.StateOfChargeStart_pct))) df)
    as [ss Es]; [intros r Hr E; apply (H r Hr); left; exact E|].
  destruct (astype_float_total
              (fun r => remove_char "%" (str r.(Dated.StateOfChargeEnd_pct))) df)
    as [es Ee]; [intros r Hr E; apply (H r Hr); right; left; exact E|].
  destruct (astype_float_total
              (fun r => remove_char "$" (str r.(Dated.ChargingCostUSD))) df)
    as [cs Ec]; [intros r Hr E; apply (H r Hr); right; right; exact E|].
  rewrite Es, Ee, Ec. simpl. eexists. split; [reflexivity|].
  apply astype_float_inv in Es, Ee, Ec.
  symmetry. apply (Forall2_length (with_features_featured df ss es cs Es Ee Ec)).
Qed.

Lemma unreadable_decide (df : Dated.frame) :
  (exists r, In r df /\ Unread.unreadable r)
  \/ (forall r, In r df -> ~ Unread.unreadable r).
Proof.
  induction df as [|a df IH]; [right; intros r []|].
  assert (D : Unread.unreadable a \/ ~ Unread.unreadable a).
  { unfold Unread.unreadable.
    destruct (PyFloat.float_of_str (remove_char "%" (str a.(Dated.StateOfChargeStart_pct))));
      [|left; left; reflexivity].
    destruct (PyFloat.float_of_str (remove_char "%" (str a.(Dated.StateOfChargeEnd_pct))));
      [|left; right; left; reflexivity].
    destruct (PyFloat.float_of_str (remove_char "$" (str a.(Dated.ChargingCostUSD))));
      [|left; right; right; reflexivity].
    right. intros [E|[E|E]]; discriminate. }
  destruct D as [U|N]; [left; exists a; split; [left; reflexivity | exact U]|].
  destruct IH as [(r & Hr & U)|IH].
  - left. exists r. split; [right; exact Hr | exact U].
  - right. intros r [<-|Hr]; [exact N | apply IH, Hr].
Qed.

(** X7.  The symbol stage raises, for the whole table, as soon as one row
    holds a state-of-charge or cost text that is not a float once its
    ['%'] or ['$'] characters are removed; when every such text reads as a
    float the stage returns a table with as many rows as it was given. *)
Theorem symbols_unreadable_is_fatal (df : Dated.frame) :
  (forall r, In r df -> Unread.unreadable r ->
     clean_symbols_and_features df = Raise ValueError)
  /\ ((forall r, In r df -> ~ Unread.unreadable r) ->
      exists df', clean_symbols_and_features df = Ok df' /\ length df' = length df).
Proof.
  split; [exact (clean_symbols_unreadable df) | exact (clean_symbols_readable df)].
Qed.

Lemma symbols_unreadable_is_fatal_witness :
  clean_symbols_and_features
    [dated_row Sample.parsers Sample.full_row;
     {| Dated.cat := Sample.cats; Dated.num := Sample.nums;
        Dated.ChargingStationId := PyStr "S7";
        Dated.ChargingCostUSD := PyStr "$ten";
        Dated.StateOfChargeStart_pct := PyStr "20%";
        Dated.StateOfChargeEnd_pct := PyStr "80%";
        Dated.ChargingStartDate := None; Dated.ChargingStartTime := None;
        Dated.ChargingEndDate := None; Dated.ChargingEndTime := None |}]
  = Raise ValueError.
Proof.
  eapply (proj1 (symbols_unreadable_is_fatal _)).
  - right. left. reflexivity.
  - right. right. reflexivity.
Defined.

(** X8.  The symbol stage has no guard for missing cells: a [None] in a
    state-of-charge or cost cell makes it raise, a NaN there is read back
    as the float NaN, and a missing station id comes out as the text
    ["nan"] or ["None"]. *)
Theorem symbols_missing_cells (df : Dated.frame) :
  (forall r, In r df ->
     r.(Dated.StateOfChargeStart_pct) = PyNone
     \/ r.(Dated.StateOfChargeEnd_pct) = PyNone
     \/ r.(Dated.ChargingCostUSD) = PyNone ->
     clean_symbols_and_features df = Raise ValueError)
  /\ (forall df',
        clean_symbols_and_features df = Ok df' ->
        Forall2 (fun r r' =>
          (r.(Dated.StateOfChargeStart_pct) = PyNaN ->
           is_nan r'.(Final.StateOfChargeStart_pct) = true)
          /\ (r.(Dated.StateOfChargeEnd_pct) = PyNaN ->
              is_nan r'.(Final.StateOfChargeEnd_pct) = true)
          /\ (r.(Dated.ChargingCostUSD) = PyNaN ->
              is_nan r'.(Final.ChargingCostUSD) = true)
          /\ (r.(Dated.ChargingStationId) = PyNaN ->
              r'.(Final.ChargingStationId) = "nan")
          /\ (r.(Dated.ChargingStationId) = PyNone ->
              r'.(Final.ChargingStationId) = "None")) df df').
Proof.
  split.
  - intros r Hin H. apply (clean_symbols_unreadable df r Hin).
    destruct H as [H|[H|H]]; [left | right; left | right; right];
      rewrite H; reflexivity.
  - intros df' H. apply clean_symbols_ok in H. revert H.
    apply Forall2_impl. intros r r' (F1 & F2 & F3 & F4 & _).
    repeat split; intro E; rewrite E in *.
    + injection F1 as <-. reflexivity.
    + injection F2 as <-. reflexivity.
    + injection F3 as <-. reflexivity.
    + exact F4.
    + exact F4.
Qed.

(** ** The whole run *)

Lemma isna_categoricals_some (c : categoricals) :
  isna_categoricals c = true -> exists col, isna (get_cat col c) = true.
Proof.
  unfold isna_categoricals. intro H.
  repeat (apply orb_true_iff in H; destruct H as [H|H]).
  - exists Col.VehicleModel. exact H.
  - exists Col.ChargingStationLocation. exact H.
  - exists Col.TimeOfDay. exact H.
  - exists Col.DayOfWeek. exact H.
  - exists Col.ChargerType. exact H.
  - exists Col.UserType. exact H.
Qed.

Lemma isna_any_clean_row (r : Loaded.row) :
  Loaded.isna_any r = true -> Loaded.isna_any (clean_row r) = true.
Proof.
  assert (C : isna_categoricals r.(Loaded.cat) = true ->
              isna_categoricals (clean_cats r.(Loaded.cat)) = true).
  { intro E. destruct (isna_categoricals_some _ E) as [col Hc].
    apply (isna_categoricals_cell col).
    rewrite get_cat_clean, (clean_value_missing col _ Hc). reflexivity. }
  unfold Loaded.isna_any. cbn [clean_row Loaded.cat Loaded.num
    Loaded.ChargingStationId Loaded.ChargingStartTime Loaded.ChargingEndTime
    Loaded.ChargingCostUSD Loaded.StateOfChargeStart_pct Loaded.StateOfChargeEnd_pct].
  rewrite !orb_true_iff. tauto.
Qed.

Lemma dropna_clean_app (df1 df2 : Loaded.frame) :
  handle_missing_and_dropna (clean_categoricals_auto (df1 ++ df2)%list)
  = (handle_missing_and_dropna (clean_categoricals_auto df1)
     ++ handle_missing_and_dropna (clean_categoricals_auto df2))%list.
Proof.
  unfold handle_missing_and_dropna.
  rewrite !clean_categoricals_auto_map, map_app, filter_app. reflexivity.
Qed.

(** X9.  A row that holds a missing value, when loaded or once cleaned, has
    no effect on the run: the run on the table with the row is the run on
    the table without it, result or exception alike.  Such a row never
    reaches the date-time parsers or the number parser. *)
Theorem dropped_row_has_no_effect (lib : datetime_parsers)
    (df1 df2 : Loaded.frame) (r : Loaded.row) :
  Loaded.isna_any r = true
  \/ (exists col,
        clean_series (aliases_of col) (canon_of col) [get_cat col r.(Loaded.cat)]
        = [PyNaN]) ->
  main lib (df1 ++ r :: df2)%list = main lib (df1 ++ df2)%list.
Proof.
  intro H.
  assert (M : Loaded.isna_any (clean_row r) = true).
  { destruct H as [H|[col H]]; [apply isna_any_clean_row, H|].
    apply (clean_missing_cell_row col). rewrite clean_series_map in H.
    simpl in H. injection H as H. exact H. }
  unfold main. rewrite (dropna_clean_skips df1 df2 r M), dropna_clean_app.
  reflexivity.
Qed.

Lemma dropped_row_has_no_effect_witness :
  main Sample.parsers
    [Sample.full_row;
     Sample.session
       {| VehicleModel := PyStr " unknown# ";
          ChargingStationLocation := PyStr "Seattle";
          TimeOfDay := PyStr "Evening"; DayOfWeek := PyStr "Monday";
          ChargerType := PyStr "Level 2"; UserType := PyStr "Commuter" |}
       (PyStr "not a date")]
  = main Sample.parsers [Sample.full_row].
Proof.
  apply (dropped_row_has_no_effect Sample.parsers [Sample.full_row] []).
  right. exists Col.VehicleModel. reflexivity.
Defined.

Lemma featured_rows (lib : datetime_parsers) (kept : Loaded.frame)
    (df' : Final.frame) :
  Forall2 featured (map (dated_row lib) kept) df' ->
  length df' = length kept
  /\ map Final.cat df' = map Loaded.cat kept
  /\ map Final.num df' = map Loaded.num kept
  /\ map Final.ChargingStartDate df'
     = map (fun r => datetime_value lib.(parse_date) (start_date_token r)) kept
  /\ map Final.ChargingStartTime df'
     = map (fun r => datetime_value lib.(parse_time) (start_time_token r)) kept
  /\ map Final.ChargingEndDate df'
     = map (fun r => datetime_value lib.(parse_date) (end_date_token r)) kept
  /\ map Final.ChargingEndTime df'
     = map (fun r => datetime_value lib.(parse_time) (end_time_token r)) kept.
Proof.
  revert df'. induction kept as [|r kept IH]; intros df' H; inversion H; subst.
  - repeat split; reflexivity.
  - destruct (IH _ H4) as (L & C & N & D1 & T1 & D2 & T2).
    destruct H2 as (_ & _ & _ & _ & _ & _ & F7 & F8 & F9 & F10 & F11 & F12).
    simpl. rewrite L, C, N, D1, T1, D2, T2, F7, F8, F9, F10, F11, F12.
    repeat split; reflexivity.
Qed.

(** X10.  When the run returns a table, its rows are the rows of the
    cleaned table that hold no missing value, one for one and in their
    order: no row is added, the categorical and measurement cells are those
    of the cleaned row, and each date or time is what the parser made of
    that row's token ([None] when the token is absent or read as [NaT]). *)
Theorem run_keeps_rows (lib : datetime_parsers) (df : Loaded.frame)
    (df' : Final.frame) :
  main lib df = Ok df' ->
  let kept := handle_missing_and_dropna (clean_categoricals_auto df) in
  length df' = length kept
  /\ length df' <= length df
  /\ map Final.cat df' = map Loaded.cat kept
  /\ map Final.num df' = map Loaded.num kept
  /\ map Final.ChargingStartDate df'
     = map (fun r => datetime_value lib.(parse_date) (start_date_token r)) kept
  /\ map Final.ChargingStartTime df'
     = map (fun r => datetime_value lib.(parse_time) (start_time_token r)) kept
  /\ map Final.ChargingEndDate df'
     = map (fun r => datetime_value lib.(parse_date) (end_date_token r)) kept
  /\ map Final.ChargingEndTime df'
     = map (fun r => datetime_value lib.(parse_time) (end_time_token r)) kept.
Proof.
  intros H kept. destruct (featured_rows lib kept df' (main_ok lib df df' H))
    as (L & R).
  split; [exact L|]. split; [|exact R].
  rewrite L. unfold kept, handle_missing_and_dropna.
  rewrite clean_categoricals_auto_map.
  rewrite <- (length_map clean_row df). apply filter_length_le.
Qed.

Lemma run_keeps_rows_witness :
  let df := [Sample.date_only_row;
             Sample.session Sample.cats PyNaN;
             Sample.full_row] in
  let df' := match main Sample.parsers df with Ok t => t | Raise _ => [] end in
  length df' = 2
  /\ map Final.ChargingStartTime df'
     = [None; Some {| hour := 12; minute := 0; second := 0 |}].
Proof.
  intros df df'.
  destruct (run_keeps_rows Sample.parsers df df' eq_refl)
    as (L & _ & _ & _ & _ & T & _).
  split; [exact L | exact T].
Defined.

(** X11.  The run raises exactly when a row that survives the drop holds a
    date or time token a parser refuses, or a state-of-charge or cost text
    that is not a float without its symbol; otherwise it returns a
    table. *)
Theorem run_aborts_iff (lib : datetime_parsers) (df : Loaded.frame) :
  main lib df = Raise ValueError
  <-> exists r,
        In r (handle_missing_and_dropna (clean_categoricals_auto df))
        /\ (row_refused lib r \/ Unread.unreadable (dated_row lib r)).
Proof.
  unfold main.
  set (kept := handle_missing_and_dropna (clean_categoricals_auto df)).
  destruct (row_refused_decide lib kept) as [(r & Hr & R)|N].
  - rewrite (process_datetime_refused lib kept r Hr R). cbn [bind].
    split; [intros _; exists r; split; [exact Hr | left; exact R] | reflexivity].
  - rewrite (process_datetime_accepted lib kept N). cbn [bind].
    destruct (unreadable_decide (map (dated_row lib) kept)) as [(d & Hd & U)|NU].
    + rewrite (clean_symbols_unreadable _ d Hd U).
      split; [|reflexivity]. intros _.
      apply in_map_iff in Hd. destruct Hd as (r & <- & Hr).
      exists r. split; [exact Hr | right; exact U].
    + destruct (clean_symbols_readable _ NU) as (df' & E & _). rewrite E.
      split; [discriminate|]. intros (r & Hr & [R|U]).
      * destruct (N r Hr R).
      * destruct (NU (dated_row lib r) (in_map _ _ _ Hr) U).
Qed.

(** ** The report on missing values and the drop *)

Lemma isna_any_columns (r : Loaded.row) :
  Loaded.isna_any r = existsb (fun c => snd c r) Report.isna_columns.
Proof.
  unfold Loaded.isna_any, isna_categoricals, isna_numerics. simpl.
  generalize (isna r.(Loaded.cat).(VehicleModel))
    (isna r.(Loaded.cat).(ChargingStationLocation))
    (isna r.(Loaded.cat).(TimeOfDay)) (isna r.(Loaded.cat).(DayOfWeek))
    (isna r.(Loaded.cat).(ChargerType)) (isna r.(Loaded.cat).(UserType))
    (is_nan r.(Loaded.num).(BatteryCapacityKWh))
    (is_nan r.(Loaded.num).(EnergyConsumedKwh))
    (is_nan r.(Loaded.num).(ChargingDurationHours))
    (is_nan r.(Loaded.num).(ChargingRateKW))
    (is_nan r.(Loaded.num).(DistanceDrivenKm))
    (is_nan r.(Loaded.num).(TemperatureC))
    (is_nan r.(Loaded.num).(VehicleAgeYears))
    (isna r.(Loaded.ChargingStationId)) (isna r.(Loaded.ChargingStartTime))
    (isna r.(Loaded.ChargingEndTime)) (isna r.(Loaded.ChargingCostUSD))
    (isna r.(Loaded.StateOfChargeStart_pct)) (isna r.(Loaded.StateOfChargeEnd_pct)).
  intros. btauto.
Qed.

Lemma filter_length_split {A : Type} (p : A -> bool) (l : list A) :
  length (filter p l) + length (filter (fun x => negb (p x)) l) = length l.
Proof.
  induction l as [|a l IH]; simpl; [reflexivity|].
  destruct (p a); simpl; lia.
Qed.

Lemma filter_length_mono {A : Type} (p q : A -> bool) (l : list A) :
  (forall x, p x = true -> q x = true) ->
  length (filter p l) <= length (filter q l).
Proof.
  intro H. induction l as [|a l IH]; simpl; [lia|].
  destruct (p a) eqn:E; [rewrite (H a E); simpl; lia|].
  destruct (q a); simpl; lia.
Qed.

Lemma column_counts_cons {A C : Type} (f : C -> A -> bool) (cols : list C)
    (a : A) (l : list A) :
  list_sum (map (fun c => length (filter (f c) (a :: l))) cols)
  = length (filter (fun c => f c a) cols)
    + list_sum (map (fun c => length (filter (f c) l)) cols).
Proof.
  induction cols as [|c cols IH]; simpl in *; [reflexivity|].
  rewrite IH. destruct (f c a); simpl; lia.
Qed.

Lemma existsb_filter_length {C : Type} (p : C -> bool) (cols : list C) :
  existsb p cols = true -> 1 <= length (filter p cols).
Proof.
  induction cols as [|c cols IH]; simpl; [discriminate|].
  destruct (p c); simpl; [lia | exact IH].
Qed.

Lemma any_le_column_counts {A C : Type} (f : C -> A -> bool) (cols : list C)
    (l : list A) :
  length (filter (fun a => existsb (fun c => f c a) cols) l)
  <= list_sum (map (fun c => length (filter (f c) l)) cols).
Proof.
  induction l as [|a l IH].
  - simpl. induction cols; simpl; lia.
  - rewrite column_counts_cons. simpl.
    destruct (existsb (fun c => f c a) cols) eqn:E; simpl; [|lia].
    pose proof (existsb_filter_length _ _ E). lia.
Qed.

Lemma dropped_count (df : Loaded.frame) :
  length df - length (handle_missing_and_dropna df)
  = length (filter Loaded.isna_any df).
Proof.
  unfold handle_missing_and_dropna.
  pose proof (filter_length_split Loaded.isna_any df). lia.
Qed.

Lemma column_count_le_dropped (df : Loaded.frame) (name : string) (n : nat) :
  In (name, n) (Report.isna_sum df) -> n <= length (filter Loaded.isna_any df).
Proof.
  intro H. unfold Report.isna_sum in H. apply in_map_iff in H.
  destruct H as (c & E & Hc). injection E as _ <-.
  apply filter_length_mono. intros r Hr. rewrite isna_any_columns.
  apply existsb_exists. exists c. split; [exact Hc | exact Hr].
Qed.

Lemma all_na_le_dropped (df : Loaded.frame) :
  length (Report.is_ALL_na df) <= length (filter Loaded.isna_any df).
Proof.
  unfold Report.is_ALL_na. apply filter_length_mono. intros r Hr.
  rewrite !andb_true_iff in Hr. unfold Loaded.isna_any, isna_categoricals.
  destruct Hr as [[[[[[[H _] _] _] _] _] _] _]. rewrite H. reflexivity.
Qed.

(** X12.  The counts printed before the drop bound the number of rows the
    drop removes: that number is at least the missing count of any one
    column and at least the number of rows counted as wholly missing, and
    at most the sum of the missing counts of all columns. *)
Theorem missing_report_bounds (df : Loaded.frame) :
  let dropped := length df - length (handle_missing_and_dropna df) in
  (forall name n, In (name, n) (Report.isna_sum df) -> n <= dropped)
  /\ length (Report.is_ALL_na df) <= dropped
  /\ dropped <= list_sum (map snd (Report.isna_sum df)).
Proof.
  intro dropped. unfold dropped. rewrite dropped_count. split; [|split].
  - apply column_count_le_dropped.
  - apply all_na_le_dropped.
  - unfold Report.isna_sum. rewrite map_map. cbn [snd].
    rewrite (filter_ext Loaded.isna_any
               (fun r => existsb (fun c => snd c r) Report.isna_columns))
      by apply isna_any_columns.
    apply (any_le_column_counts (fun c r => snd c r)).
Qed.

Lemma filter_id_iff {A : Type} (p : A -> bool) (l : list A) :
  filter p l = l <-> forall x, In x l -> p x = true.
Proof.
  split.
  - intros H x Hx. rewrite <- H in Hx. apply filter_In in Hx. apply Hx.
  - intro H. apply forallb_filter_id, forallb_forall, H.
Qed.

Lemma filter_none {A : Type} (p : A -> bool) (l : list A) :
  (forall x, In x l -> p x = false) -> filter p l = [].
Proof.
  induction l as [|a l IH]; simpl; [reflexivity|].
  intro H. rewrite (H a (or_introl eq_refl)). apply IH.
  intros x Hx. apply H. right. exact Hx.
Qed.

(** X13.  The drop is final: a second drop removes nothing, the table it
    leaves has a missing count of zero in every column and no wholly
    missing row, and the drop returns the table as it was exactly when no
    row holds a missing value. *)
Theorem drop_is_final (df : Loaded.frame) :
  let kept := handle_missing_and_dropna df in
  handle_missing_and_dropna kept = kept
  /\ (forall name n, In (name, n) (Report.isna_sum kept) -> n = 0)
  /\ Report.is_ALL_na kept = []
  /\ (kept = df <-> forall r, In r df -> Loaded.isna_any r = false).
Proof.
  intro kept.
  assert (K : filter Loaded.isna_any kept = []).
  { apply filter_none. intros r Hr. apply dropna_no_missing in Hr. apply Hr. }
  split; [|split; [|split]].
  - apply filter_id_iff. intros r Hr. apply dropna_no_missing in Hr.
    destruct Hr as [_ Hr]. rewrite Hr. reflexivity.
  - intros name n H. pose proof (column_count_le_dropped kept name n H) as B.
    rewrite K in B. simpl in B. lia.
  - pose proof (all_na_le_dropped kept) as B. rewrite K in B.
    destruct (Report.is_ALL_na kept); [reflexivity | simpl in B; lia].
  - unfold kept, handle_missing_and_dropna. split.
    + intros H r Hr. apply negb_true_iff. revert r Hr.
      apply filter_id_iff. exact H.
    + intro H. apply filter_id_iff. intros r Hr. rewrite (H r Hr). reflexivity.
Qed.

(** ** The column labels *)

Lemma rename_label_fixed (c c' : string) :
  dict_get Header.rename_map c = Some c' ->
  match dict_get Header.rename_map c' with Some c'' => c'' | None => c' end = c'.
Proof.
  intro H. apply dict_get_In in H. unfold Header.rename_map in H.
  repeat (destruct H as [H|H]; [injection H as <- <-; reflexivity|]).
  destruct H.
Qed.

Lemma rename_label_injective (a b : string) :
  In a (map fst Header.rename_map) -> In b (map fst Header.rename_map) ->
  Header.rename_columns [a] = Header.rename_columns [b] -> a = b.
Proof.
  intros Ha Hb. unfold Header.rename_map in Ha. simpl in Ha.
  repeat (destruct Ha as [<-|Ha];
          [unfold Header.rename_map in Hb; simpl in Hb;
           repeat (destruct Hb as [<-|Hb];
                   [intro E; vm_compute in E; first [reflexivity | discriminate]|]);
           destruct Hb|]).
  destruct Ha.
Qed.

(** X14.  Renaming the column labels is idempotent on any header, and on
    the documented CSV labels it is one to one, so that distinct documented
    columns keep distinct labels.  After [drop_user_id] no label is
    ["UserId"] and every other label is kept.  The documented header comes
    out as the columns of the table, which hold every column the later
    steps read. *)
Theorem header_renamed :
  (forall columns,
      Header.rename_columns (Header.rename_columns columns)
      = Header.rename_columns columns)
  /\ (forall columns,
        NoDup columns -> incl columns (map fst Header.rename_map) ->
        NoDup (Header.rename_columns columns))
  /\ (forall columns c,
        In c (Header.drop_user_id columns) <-> In c columns /\ c <> "UserId")
  /\ Header.drop_user_id (Header.rename_columns (map fst Header.rename_map))
     = map fst Report.isna_columns
  /\ incl Header.columns_read (map fst Report.isna_columns).
Proof.
  split; [|split; [|split; [|split]]].
  - intro columns. unfold Header.rename_columns, Header.rename.
    rewrite map_map. apply map_ext. intro c.
    destruct (dict_get Header.rename_map c) as [c'|] eqn:E.
    + apply (rename_label_fixed c c' E).
    + rewrite E. reflexivity.
  - intros columns Hn Hi. unfold Header.rename_columns, Header.rename.
    apply NoDup_map_NoDup_ForallPairs; [|exact Hn].
    intros a b Ha Hb E. apply (rename_label_injective a b (Hi a Ha) (Hi b Hb)).
    unfold Header.rename_columns, Header.rename. cbn [map]. f_equal. exact E.
  - intros columns c. unfold Header.drop_user_id.
    destruct (existsb (String.eqb "UserId") columns) eqn:E.
    + rewrite filter_In, negb_true_iff.
      destruct (String.eqb_spec c "UserId"); split; intros [H1 H2];
        (split; [exact H1|]); congruence.
    + split; [|intros [H _]; exact H]. intro H. split; [exact H|]. intros ->.
      assert (T : existsb (String.eqb "UserId") columns = true).
      { apply existsb_exists. exists "UserId". split; [exact H | reflexivity]. }
      congruence.
  - reflexivity.
  - intros c H. unfold Header.columns_read, Header.cat_cols in H. simpl in H.
    repeat (destruct H as [<-|H]; [vm_compute; tauto|]). destruct H.
Qed.

Lemma header_renamed_witness :
  NoDup (Header.rename_columns ["user id"; "Charging StartTime"; "TimeofDay"])
  /\ (In "TimeOfDay"
        (Header.drop_user_id
           (Header.rename_columns ["user id"; "Charging StartTime"; "TimeofDay"]))
      <-> In "TimeOfDay"
            (Header.rename_columns ["user id"; "Charging StartTime"; "TimeofDay"])
          /\ "TimeOfDay" <> "UserId").
Proof.
  split.
  - apply (proj1 (proj2 header_renamed)).
    + repeat constructor; simpl; intuition discriminate.
    + intros c H. simpl in H.
      repeat (destruct H as [<-|H]; [vm_compute; tauto|]). destruct H.
  - apply (proj1 (proj2 (proj2 header_renamed))).
Defined.

(** ** Outliers and missing numbers *)

Lemma prim2sf_nan (v : float) : is_nan v = true -> Prim2SF v = SpecFloat.S754_nan.
Proof. intro H. unfold Prim2SF. rewrite H. reflexivity. Qed.

Lemma ltb_nan_l (v x : float) : is_nan v = true -> (v <? x)%float = false.
Proof.
  intro H. rewrite ltb_spec, (prim2sf_nan v H). reflexivity.
Qed.

Lemma ltb_nan_r (v x : float) : is_nan v = true -> (x <? v)%float = false.
Proof.
  intro H. rewrite ltb_spec, (prim2sf_nan v H).
  unfold SpecFloat.SFltb, SpecFloat.SFcompare. destruct (Prim2SF x); reflexivity.
Qed.

(** X15.  A NaN is never counted as an outlier, whatever the bounds, and
    with NaN bounds no value is.  The count of a column is at most the
    number of rows, and the dictionary printed has one entry for each of
    the twelve numeric columns of the table. *)
Theorem outliers_skip_nan :
  (forall lower_bound upper_bound v : float,
      is_nan v = true -> is_outlier lower_bound upper_bound v = false)
  /\ (forall lower_bound upper_bound v : float,
        is_nan lower_bound = true -> is_nan upper_bound = true ->
        is_outlier lower_bound upper_bound v = false)
  /\ (forall (quantile : list float -> float -> float) (column : list float),
        length (outliers_of_column quantile column) <= length column
        /\ Forall (fun v => is_nan v = false) (outliers_of_column quantile column))
  /\ (forall (quantile : list float -> float -> float) (df : Final.frame),
        map fst (check_outliers_iqr quantile df)
        = [ "BatteryCapacityKWh"; "EnergyConsumedKwh"; "ChargingDurationHours";
            "ChargingRateKW"; "ChargingCostUSD"; "StateOfChargeStart%";
            "StateOfChargeEnd%"; "DistanceDrivenKm"; "TemperatureC";
            "VehicleAgeYears"; "ChargeDifference%"; "ChargingDurationMinutes" ]
        /\ Forall (fun nc => snd nc <= length df) (check_outliers_iqr quantile df)).
Proof.
  assert (A : forall lb ub v, is_nan v = true -> is_outlier lb ub v = false).
  { intros lb ub v H. unfold is_outlier.
    rewrite (ltb_nan_l v lb H), (ltb_nan_r v ub H). reflexivity. }
  split; [exact A|]. split; [|split].
  - intros lb ub v H1 H2. unfold is_outlier.
    rewrite (ltb_nan_r lb v H1), (ltb_nan_l ub v H2). reflexivity.
  - intros quantile column. unfold outliers_of_column.
    destruct (iqr_bounds _ _) as [lb ub]. split; [apply filter_length_le|].
    apply Forall_forall. intros v Hv. apply filter_In in Hv. destruct Hv as [_ Hv].
    destruct (is_nan v) eqn:E; [|reflexivity]. rewrite (A lb ub v E) in Hv. discriminate.
  - intros quantile df. split; [reflexivity|].
    unfold check_outliers_iqr, Final.numeric_columns.
    repeat (constructor;
            [cbn [snd fst map]; unfold outliers_of_column;
             destruct (iqr_bounds _ _);
             match goal with
             | |- length (filter _ (map ?f df)) <= _ =>
                 rewrite <- (length_map f df); apply filter_length_le
             end|]).
    constructor.
Qed.

Lemma outliers_skip_nan_witness :
  is_outlier (-5)%float 35%float nan = false
  /\ is_outlier nan nan 1000%float = false.
Proof.
  split.
  - apply (proj1 outliers_skip_nan). reflexivity.
  - apply (proj1 (proj2 outliers_skip_nan)); reflexivity.
Defined.

(** ** The rows the plots select *)

Lemma clean_value_of_text (aliases canon : dict) (x : pyobj) (t : string) :
  _normalize_text x = PyStr t ->
  clean_value aliases canon x
  = Pandas.replace_one "Unknown" PyNaN
      (Pandas.replace_one "unknown" PyNaN
         (mapper canon (Pandas.replace_by aliases (PyStr t)))).
Proof.
  intro E.
  assert (Hx : isna x = false) by (destruct x; try reflexivity; discriminate).
  unfold clean_value. rewrite Hx, E. reflexivity.
Qed.

Lemma clean_value_of_nan (col : Col.t) (x : pyobj) :
  _normalize_text x = PyNaN ->
  clean_value (aliases_of col) (canon_of col) x = PyNaN.
Proof.
  intro E. destruct (isna x) eqn:Hx; [apply clean_value_missing, Hx|].
  unfold clean_value. rewrite Hx, E. reflexivity.
Qed.

Lemma lowered_not_label (t label : string) :
  lowered t = true -> lowered label = false -> String.eqb t label = false.
Proof.
  intros Ht Hl. destruct (String.eqb_spec t label) as [->|]; [congruence | reflexivity].
Qed.

Lemma level_cell (x : pyobj) :
  EVVisualizer.eq_str (clean_value CHARGER_ALIASES CHARGER_CANON x) "Level" = true
  <-> _normalize_text x = PyStr "level".
Proof.
  destruct (normalize_text_cases x) as [E|[t E]].
  - pose proof (clean_value_of_nan Col.ChargerType x E) as V.
    cbn [aliases_of canon_of] in V. rewrite V, E. simpl.
    split; discriminate.
  - destruct (normalize_text_shape x t E) as (_ & L & _).
    pose proof (lowered_not_label t "Level" L eq_refl) as NL.
    rewrite (clean_value_of_text _ _ x t E), E.
    unfold CHARGER_ALIASES, CHARGER_CANON.
    cbn [Pandas.replace_by dict_get mapper Pandas.replace_one].
    destruct (String.eqb_spec "dc fast charge" t) as [<-|N0];
      [vm_compute; split; discriminate|].
    cbn [mapper dict_get].
    destruct (String.eqb_spec "level 1" t) as [<-|N1];
      [vm_compute; split; discriminate|].
    destruct (String.eqb_spec "level 2" t) as [<-|N2];
      [vm_compute; split; discriminate|].
    destruct (String.eqb_spec "dc fast charger" t) as [<-|N3];
      [vm_compute; split; discriminate|].
    destruct (String.eqb_spec "level" t) as [<-|N4];
      [vm_compute; split; reflexivity|].
    cbn [Pandas.replace_one].
    destruct (String.eqb t "unknown");
      [cbn [Pandas.replace_one EVVisualizer.eq_str]; split; [discriminate | congruence]|].
    cbn [Pandas.replace_one].
    destruct (String.eqb t "Unknown");
      [cbn [EVVisualizer.eq_str]; split; [discriminate | congruence]|].
    cbn [EVVisualizer.eq_str]. rewrite NL. split; [discriminate | congruence].
Qed.

Lemma commuter_cell (x : pyobj) :
  EVVisualizer.eq_str (clean_value USER_ALIASES USER_CANON x) "Commuter" = true
  <-> _normalize_text x = PyStr "commuter" \/ _normalize_text x = PyStr "commute".
Proof.
  destruct (normalize_text_cases x) as [E|[t E]].
  - pose proof (clean_value_of_nan Col.UserType x E) as V.
    cbn [aliases_of canon_of] in V. rewrite V, E. simpl.
    split; [discriminate | intros [H|H]; discriminate].
  - destruct (normalize_text_shape x t E) as (_ & L & _).
    pose proof (lowered_not_label t "Commuter" L eq_refl) as NL.
    rewrite (clean_value_of_text _ _ x t E), E.
    unfold USER_ALIASES, USER_CANON.
    cbn [Pandas.replace_by dict_get mapper Pandas.replace_one].
    destruct (String.eqb_spec "commute" t) as [<-|N0];
      [vm_compute; split; [right; reflexivity | reflexivity]|].
    destruct (String.eqb_spec "long-distance travele" t) as [<-|N1];
      [vm_compute; split; [discriminate | intros [H|H]; discriminate]|].
    destruct (String.eqb_spec "long-distance traveler" t) as [<-|N2];
      [vm_compute; split; [discriminate | intros [H|H]; discriminate]|].
    cbn [mapper dict_get].
    destruct (String.eqb_spec "commuter" t) as [<-|N3];
      [vm_compute; split; [left; reflexivity | reflexivity]|].
    destruct (String.eqb_spec "long distance traveler" t) as [<-|N4];
      [vm_compute; split; [discriminate | intros [H|H]; discriminate]|].
    cbn [Pandas.replace_one].
    destruct (String.eqb t "unknown");
      [cbn [Pandas.replace_one EVVisualizer.eq_str];
       split; [discriminate | intros [H|H]; congruence]|].
    cbn [Pandas.replace_one].
    destruct (String.eqb t "Unknown");
      [cbn [EVVisualizer.eq_str]; split; [discriminate | intros [H|H]; congruence]|].
    cbn [EVVisualizer.eq_str]. rewrite NL.
    split; [discriminate | intros [H|H]; congruence].
Qed.

Lemma longdist_cell (x : pyobj) :
  EVVisualizer.eq_str (clean_value USER_ALIASES USER_CANON x)
    "Long Distance Traveler" = true
  <-> _normalize_text x = PyStr "long distance traveler"
      \/ _normalize_text x = PyStr "long-distance traveler"
      \/ _normalize_text x = PyStr "long-distance travele".
Proof.
  destruct (normalize_text_cases x) as [E|[t E]].
  - pose proof (clean_value_of_nan Col.UserType x E) as V.
    cbn [aliases_of canon_of] in V. rewrite V, E. simpl.
    split; [discriminate | intros [H|[H|H]]; discriminate].
  - destruct (normalize_text_shape x t E) as (_ & L & _).
    pose proof (lowered_not_label t "Long Distance Traveler" L eq_refl) as NL.
    rewrite (clean_value_of_text _ _ x t E), E.
    unfold USER_ALIASES, USER_CANON.
    cbn [Pandas.replace_by dict_get mapper Pandas.replace_one].
    destruct (String.eqb_spec "commute" t) as [<-|N0];
      [vm_compute; split; [discriminate | intros [H|[H|H]]; discriminate]|].
    destruct (String.eqb_spec "long-distance travele" t) as [<-|N1];
      [vm_compute; split; [right; right; reflexivity | reflexivity]|].
    destruct (String.eqb_spec "long-distance traveler" t) as [<-|N2];
      [vm_compute; split; [right; left; reflexivity | reflexivity]|].
    cbn [mapper dict_get].
    destruct (String.eqb_spec "commuter" t) as [<-|N3];
      [vm_compute; split; [discriminate | intros [H|[H|H]]; discriminate]|].
    destruct (String.eqb_spec "long distance traveler" t) as [<-|N4];
      [vm_compute; split; [left; reflexivity | reflexivity]|].
    cbn [Pandas.replace_one].
    destruct (String.eqb t "unknown");
      [cbn [Pandas.replace_one EVVisualizer.eq_str];
       split; [discriminate | intros [H|[H|H]]; congruence]|].
    cbn [Pandas.replace_one].
    destruct (String.eqb t "Unknown");
      [cbn [EVVisualizer.eq_str];
       split; [discriminate | intros [H|[H|H]]; congruence]|].
    cbn [EVVisualizer.eq_str]. rewrite NL.
    split; [discriminate | intros [H|[H|H]]; congruence].
Qed.

Lemma main_row_origin (lib : datetime_parsers) (df : Loaded.frame)
    (out : Final.frame) (r' : Final.row) :
  main lib df = Ok out -> In r' out ->
  exists r, In r df /\ Final.cat r' = clean_cats (Loaded.cat r).
Proof.
  intros H Hr'.
  destruct (Forall2_In_r _ _ _ r' (main_ok lib df out H) Hr') as (d & Hd & F).
  apply in_map_iff in Hd. destruct Hd as (k & <- & Hk).
  apply dropna_no_missing in Hk. destruct Hk as [Hk _].
  rewrite clean_categoricals_auto_map in Hk.
  apply in_map_iff in Hk. destruct Hk as (r & <- & Hr).
  exists r. split; [exact Hr|].
  destruct F as (_ & _ & _ & _ & _ & _ & F7 & _). exact F7.
Qed.

(** X16.  What the plots select from the table the run returns.  Every row
    of that table comes from a loaded row, and by the text of that row once
    normalized: the charging-rate plot leaves the row out exactly when its
    charger type reads ["level"]; the commuter chart takes it exactly when
    its user type reads ["commuter"] or ["commute"], the long-distance chart
    exactly when it reads ["long distance traveler"] or one of the two
    hyphenated spellings; no row is in both charts. *)
Theorem plot_selections (lib : datetime_parsers) (df : Loaded.frame)
    (out : Final.frame) (r' : Final.row) :
  main lib df = Ok out -> In r' out ->
  exists r,
    In r df
    /\ Final.cat r' = clean_cats (Loaded.cat r)
    /\ (In r' (EVVisualizer.not_level out)
        <-> _normalize_text r.(Loaded.cat).(ChargerType) <> PyStr "level")
    /\ (In r' (EVVisualizer.commuter_df out)
        <-> _normalize_text r.(Loaded.cat).(UserType) = PyStr "commuter"
            \/ _normalize_text r.(Loaded.cat).(UserType) = PyStr "commute")
    /\ (In r' (EVVisualizer.longdist_df out)
        <-> _normalize_text r.(Loaded.cat).(UserType) = PyStr "long distance traveler"
            \/ _normalize_text r.(Loaded.cat).(UserType)
               = PyStr "long-distance traveler"
            \/ _normalize_text r.(Loaded.cat).(UserType)
               = PyStr "long-distance travele")
    /\ ~ (In r' (EVVisualizer.commuter_df out)
          /\ In r' (EVVisualizer.longdist_df out)).
Proof.
  intros H Hr'. destruct (main_row_origin lib df out r' H Hr') as (r & Hr & C).
  exists r. split; [exact Hr|]. split; [exact C|].
  unfold EVVisualizer.not_level, EVVisualizer.commuter_df, EVVisualizer.longdist_df.
  rewrite !filter_In, C. cbn [clean_cats ChargerType UserType].
  split; [|split; [|split]].
  - rewrite negb_true_iff, <- not_true_iff_false, level_cell. tauto.
  - rewrite commuter_cell. tauto.
  - rewrite longdist_cell. tauto.
  - intros [[_ A] [_ B]].
    destruct (clean_value USER_ALIASES USER_CANON (UserType (Loaded.cat r)))
      as [| |s|s]; try discriminate.
    cbn [EVVisualizer.eq_str] in A, B.
    apply String.eqb_eq in A, B. congruence.
Qed.

Lemma plot_selections_witness :
  match main Sample.parsers [Sample.full_row] with
  | Ok ((r' :: _) as out) =>
      exists r,
        In r [Sample.full_row]
        /\ In r' (EVVisualizer.not_level out)
        /\ In r' (EVVisualizer.commuter_df out)
        /\ ~ In r' (EVVisualizer.longdist_df out)
  | _ => False
  end.
Proof.
  destruct (main Sample.parsers [Sample.full_row]) as [[|r' out']|] eqn:E;
    [vm_compute in E; discriminate | | vm_compute in E; discriminate].
  destruct (plot_selections Sample.parsers [Sample.full_row] (r' :: out') r' E
              (or_introl eq_refl)) as (r & Hr & _ & L & C & _ & N).
  exists r. split; [exact Hr|].
  destruct Hr as [<-|[]].
  assert (HC : In r' (EVVisualizer.commuter_df (r' :: out'))).
  { apply C. left. reflexivity. }
  split; [|split; [exact HC|]].
  - apply L. vm_compute. discriminate.
  - intro HL. apply N. split; [exact HC | exact HL].
Defined.
